(** * static/script.js: the analysis form controller

    A shallow embedding of the browser script: the values that
    [response.json()] delivers, the coercions the script applies to them,
    the page elements it writes, the two renderers and the submit handler,
    followed by the properties of the specification. *)

From Stdlib Require Import String Ascii List Bool ZArith QArith Qabs Qround Lia Lqa.
From Stdlib Require Import DecimalString Permutation Sorted.
Import ListNotations.

Set Warnings "-register-all".

Local Close Scope Q_scope.
Local Open Scope list_scope.
Local Open Scope string_scope.

(** ** Values *)

(** A JavaScript number.  A finite double is represented by its exact
    rational value, on which the standard defines both the ordering and
    [toFixed]; the two signed zeros are one. *)
Inductive number : Type :=
| NaN
| PInf
| NInf
| Fin (q : Q).

(** What [response.json()] can resolve to, plus [undefined] for a property
    that is absent.  An object is the list of its own properties, looked up
    by first match. *)
Inductive value : Type :=
| VUndefined
| VNull
| VBool (b : bool)
| VNum (n : number)
| VStr (s : string)
| VArr (elems : list value)
| VObj (props : list (string * value)).

(** Errors raised by the engine itself rather than by the script. *)
Inductive fault : Type :=
| ReadOfNullish (base : value) (prop : string)
| NotAFunction (callee : string)
| NoPrimitive.

Record exn : Type := mkExn { exn_name : string; exn_message : string }.

Inductive result (A : Type) : Type :=
| Ok (a : A)
| Throw (e : exn).
Arguments Ok {A} a.
Arguments Throw {A} e.

Definition rbind {A B : Type} (r : result A) (k : A -> result B) : result B :=
  match r with
  | Ok a => k a
  | Throw e => Throw e
  end.

Declare Scope result_scope.
Delimit Scope result_scope with result.
Notation "x <- r ;; k" := (rbind r (fun x => k))
  (at level 61, r at next level, right associativity) : result_scope.

(** The parts of the runtime that the standard leaves to the engine or
    defines on the binary representation of a double: the shortest decimal
    rendering of a number, the reading of a numeral, and the wording of the
    engine's own error messages. *)
Record Host : Type := {
  NumberToString : Q -> string;
  StringToNumber : string -> number;
  fault_message : fault -> string
}.

Definition nl : string := String (ascii_of_nat 10) EmptyString.
Definition dq : string := String (ascii_of_nat 34) EmptyString.

Fixpoint lookup (p : string) (props : list (string * value)) : value :=
  match props with
  | [] => VUndefined
  | (k, v) :: rest => if String.eqb k p then v else lookup p rest
  end.

Fixpoint has_key (p : string) (props : list (string * value)) : bool :=
  match props with
  | [] => false
  | (k, _) :: rest => String.eqb k p || has_key p rest
  end.

(** ToBoolean *)
Definition ToBoolean (v : value) : bool :=
  match v with
  | VUndefined | VNull => false
  | VBool b => b
  | VNum NaN => false
  | VNum (Fin q) => negb (Qeq_bool q 0)
  | VNum _ => true
  | VStr EmptyString => false
  | VStr _ => true
  | VArr _ | VObj _ => true
  end.

(** [a || b] *)
Definition or_else (a b : value) : value := if ToBoolean a then a else b.

(** Number::lessThan; [None] is the standard's undefined (an operand is NaN). *)
Definition lessThan (x y : number) : option bool :=
  match x, y with
  | NaN, _ | _, NaN => None
  | PInf, _ => Some false
  | _, PInf => Some true
  | _, NInf => Some false
  | NInf, _ => Some true
  | Fin a, Fin b => Some (negb (Qle_bool b a))
  end.

(** Number::subtract, without the rounding of a finite difference: rounding
    keeps the sign, and the sign is all the script uses. *)
Definition subtract (x y : number) : number :=
  match x, y with
  | NaN, _ | _, NaN => NaN
  | PInf, PInf | NInf, NInf => NaN
  | PInf, _ | _, NInf => PInf
  | NInf, _ | _, PInf => NInf
  | Fin a, Fin b => Fin (a - b)
  end.

(** Number.prototype.toFixed(f) for a finite x with 0 <= x < 10^21: the
    integer n with n / 10^f closest to x, the larger one on a tie, written
    with at least f + 1 digits and a point before the last f. *)
Definition digits (n : Z) : string := NilZero.string_of_uint (N.to_uint (Z.to_N n)).

Fixpoint zeros (k : nat) : string :=
  match k with
  | O => EmptyString
  | S k' => String "0" (zeros k')
  end.

Definition toFixed_digits (f : nat) (x : Q) : string :=
  let n := Qfloor (x * inject_Z (10 ^ Z.of_nat f) + (1 # 2)) in
  let m := digits n in
  match f with
  | O => m
  | _ =>
      let m := zeros (f + 1 - String.length m) ++ m in
      let k := String.length m in
      substring 0 (k - f) m ++ "." ++ substring (k - f) f m
  end.

Section Script.

Variable host : Host.

Definition TypeError (f : fault) : exn := mkExn "TypeError" (fault_message host f).

(** Number::toString *)
Definition Number_toString (n : number) : string :=
  match n with
  | NaN => "NaN"
  | PInf => "Infinity"
  | NInf => "-Infinity"
  | Fin q => NumberToString host q
  end.

Definition toFixed (f : nat) (n : number) : string :=
  match n with
  | Fin q =>
      let s := if Qle_bool 0 q then EmptyString else "-" in
      let x := Qabs q in
      if Qle_bool (inject_Z (10 ^ 21)) x then s ++ NumberToString host x
      else s ++ toFixed_digits f x
  | _ => Number_toString n
  end.

(** ToString, through ToPrimitive for arrays (Array.prototype.join) and
    objects.  No value made by JSON.parse is callable, so an own property
    named toString leaves an object without a primitive value. *)
Fixpoint ToString (v : value) : result string :=
  match v with
  | VUndefined => Ok "undefined"
  | VNull => Ok "null"
  | VBool true => Ok "true"
  | VBool false => Ok "false"
  | VNum n => Ok (Number_toString n)
  | VStr s => Ok s
  | VArr elems =>
      let element (x : value) : result string :=
        match x with
        | VUndefined | VNull => Ok EmptyString
        | _ => ToString x
        end in
      (fix join (l : list value) : result string :=
         match l with
         | [] => Ok EmptyString
         | [x] => element x
         | x :: rest =>
             (s <- element x ;; r <- join rest ;; Ok (s ++ "," ++ r))%result
         end) elems
  | VObj props =>
      if has_key "toString" props then Throw (TypeError NoPrimitive)
      else Ok "[object Object]"
  end.

(** ToNumber *)
Definition ToNumber (v : value) : result number :=
  match v with
  | VUndefined => Ok NaN
  | VNull => Ok (Fin 0)
  | VBool true => Ok (Fin 1)
  | VBool false => Ok (Fin 0)
  | VNum n => Ok n
  | VStr s => Ok (StringToNumber host s)
  | VArr _ | VObj _ => (s <- ToString v ;; Ok (StringToNumber host s))%result
  end.

(** [v >= t] against a numeric literal t: true only when [v < t] is false. *)
Definition ge (v : value) (t : number) : result bool :=
  (n <- ToNumber v ;;
   Ok match lessThan n t with
      | Some false => true
      | _ => false
      end)%result.

(** [v.p] for the property names the script reads; none of them is found
    on a prototype. *)
Definition Get (v : value) (p : string) : result value :=
  match v with
  | VUndefined | VNull => Throw (TypeError (ReadOfNullish v p))
  | VObj props => Ok (lookup p props)
  | _ => Ok VUndefined
  end.

(** [v.toFixed(2)], where [callee] is the text of the called expression. *)
Definition call_toFixed2 (callee : string) (v : value) : result string :=
  match v with
  | VUndefined | VNull => Throw (TypeError (ReadOfNullish v "toFixed"))
  | VNum n => Ok (toFixed 2 n)
  | _ => Throw (TypeError (NotAFunction callee))
  end.


(** ** The page *)

(** The properties of an element that the script reads or writes.  The
    children of the list container are kept as the sequence of HTML
    fragments inserted since it was last emptied; [hidden] tells whether the
    class list holds the utility class hidden, which the script only touches
    through classList. *)
Record element : Type := mkElement {
  value_ : string;
  disabled : bool;
  textContent : string;
  className : string;
  hidden : bool;
  display : string;
  innerHTML : list string
}.

(** The body of the POST request, before JSON.stringify. *)
Record userInputs : Type := mkUserInputs {
  player_or_team_input : string;
  year : string;
  week : string
}.

Record request : Type := mkRequest {
  url : string;
  method : string;
  content_type : string;
  payload : userInputs
}.

(** The document, by element id, with the alerts shown and the requests
    issued so far. *)
Record page : Type := mkPage {
  dom : string -> element;
  alerts : list string;
  requests : list request
}.

Definition getElementById (p : page) (id : string) : element := dom p id.

Definition update (id : string) (f : element -> element) (p : page) : page :=
  mkPage (fun i => if String.eqb i id then f (dom p i) else dom p i)
         (alerts p) (requests p).

Definition set_disabled (id : string) (b : bool) : page -> page :=
  update id (fun e => mkElement (value_ e) b (textContent e) (className e)
                                (hidden e) (display e) (innerHTML e)).

Definition set_textContent (id : string) (s : string) : page -> page :=
  update id (fun e => mkElement (value_ e) (disabled e) s (className e)
                                (hidden e) (display e) (innerHTML e)).

Definition set_className (id : string) (s : string) : page -> page :=
  update id (fun e => mkElement (value_ e) (disabled e) (textContent e) s
                                (hidden e) (display e) (innerHTML e)).

Definition set_hidden (id : string) (b : bool) : page -> page :=
  update id (fun e => mkElement (value_ e) (disabled e) (textContent e)
                                (className e) b (display e) (innerHTML e)).

Definition set_display (id : string) (s : string) : page -> page :=
  update id (fun e => mkElement (value_ e) (disabled e) (textContent e)
                                (className e) (hidden e) s (innerHTML e)).

Definition set_innerHTML (id : string) (l : list string) : page -> page :=
  update id (fun e => mkElement (value_ e) (disabled e) (textContent e)
                                (className e) (hidden e) (display e) l).

(** insertAdjacentHTML('beforeend', html) *)
Definition insertAdjacentHTML_beforeend (id : string) (html : string)
  : page -> page :=
  update id (fun e => mkElement (value_ e) (disabled e) (textContent e)
                                (className e) (hidden e) (display e)
                                (innerHTML e ++ [html])%list).

Definition alert (msg : string) (p : page) : page :=
  mkPage (dom p) (alerts p ++ [msg])%list (requests p).

Definition fetch (r : request) (p : page) : page :=
  mkPage (dom p) (alerts p) (requests p ++ [r])%list.

(** Script code: it may throw, and what it wrote before throwing stays. *)
Definition M (A : Type) : Type := page -> result A * page.

Definition ret {A : Type} (a : A) : M A := fun p => (Ok a, p).

Definition bind {A B : Type} (m : M A) (k : A -> M B) : M B :=
  fun p =>
    match m p with
    | (Ok a, p') => k a p'
    | (Throw e, p') => (Throw e, p')
    end.

Definition lift {A : Type} (r : result A) : M A := fun p => (r, p).

Definition throw {A : Type} (e : exn) : M A := fun p => (Throw e, p).

Definition write (f : page -> page) : M unit := fun p => (Ok tt, f p).

Declare Scope script_scope.
Delimit Scope script_scope with script.
Notation "x <- m ;; k" := (bind m (fun x => k))
  (at level 61, m at next level, right associativity) : script_scope.
Notation "m ;; k" := (bind m (fun _ => k))
  (at level 61, right associativity) : script_scope.

(** The element ids bound at the top of the script and in the
    DOMContentLoaded listener. *)
Definition playerListContainer : string := "player-recommendation-list".
Definition playerListHeader : string := "player-list-header".
Definition resultsContainer : string := "results-container".
Definition recommendationsSection : string := "recommendations-section".
Definition playerInput : string := "player-input".
Definition weekInput : string := "week-input".
Definition yearInput : string := "year-input".
Definition submitButton : string := "submit-button".
Definition buttonText : string := "button-text".
Definition spinner : string := "spinner".
Definition errorMessage : string := "error-message".

(** String.prototype.trim, on the UTF-8 encoding of the text: the white
    space and line terminator code points of the standard. *)
Definition bytes (l : list nat) : string :=
  string_of_list_ascii (map ascii_of_nat l).

Definition white_space : list string :=
  [ bytes [9]; bytes [10]; bytes [11]; bytes [12]; bytes [13]; bytes [32];
    bytes [194; 160]; bytes [225; 154; 128];
    bytes [226; 128; 128]; bytes [226; 128; 129]; bytes [226; 128; 130];
    bytes [226; 128; 131]; bytes [226; 128; 132]; bytes [226; 128; 133];
    bytes [226; 128; 134]; bytes [226; 128; 135]; bytes [226; 128; 136];
    bytes [226; 128; 137]; bytes [226; 128; 138];
    bytes [226; 128; 168]; bytes [226; 128; 169]; bytes [226; 128; 175];
    bytes [226; 129; 159]; bytes [227; 128; 128]; bytes [239; 187; 191] ].

Definition reverse (s : string) : string :=
  string_of_list_ascii (rev (list_ascii_of_string s)).

Fixpoint strip (fuel : nat) (ws : list string) (s : string) : string :=
  match fuel with
  | O => s
  | S k =>
      match find (fun w => prefix w s) ws with
      | Some w =>
          strip k ws
            (substring (String.length w) (String.length s - String.length w) s)
      | None => s
      end
  end.

Definition trimStart (s : string) : string :=
  strip (String.length s) white_space s.

Definition trimEnd (s : string) : string :=
  reverse (strip (String.length s) (map reverse white_space) (reverse s)).

Definition trim (s : string) : string := trimEnd (trimStart s).

(** ** createPlayerCardHTML *)

(** Lines 13-18: the colour of the score. *)
Definition scoreColor (reco_score : value) : result string :=
  (b75 <- ge reco_score (Fin 75) ;;
   if b75 then Ok "text-green-500"
   else
     b45 <- ge reco_score (Fin 45) ;;
     if b45 then Ok "text-yellow-400" else Ok "text-red-500")%result.

(** Line 29: [reco_score ? reco_score.toFixed(2) : '--']. *)
Definition scoreText (reco_score : value) : result string :=
  if ToBoolean reco_score
  then call_toFixed2 "playerData.reco_score.toFixed" reco_score
  else Ok "--".

(** The template literal of lines 20-34, with its six substitutions. *)
Definition card (name position team scoreColor scoreText conclusion : string)
  : string :=
  nl
  ++ "        <div class=" ++ dq ++ "bg-gray-700 p-6 rounded-xl shadow-lg border-l-4 border-yellow-600 hover:shadow-xl hover:shadow-yellow-500/10 transition duration-300" ++ dq ++ ">" ++ nl
  ++ "            <h4 class=" ++ dq ++ "font-header text-2xl font-extrabold text-white mb-2" ++ dq ++ ">" ++ name ++ "</h4>" ++ nl
  ++ "            <p class=" ++ dq ++ "text-md text-gray-400 mb-3" ++ dq ++ ">" ++ nl
  ++ "                " ++ position ++ " - " ++ team ++ nl
  ++ "            </p>" ++ nl
  ++ "            <p class=" ++ dq ++ "text-xl text-gray-300" ++ dq ++ ">" ++ nl
  ++ "                Score:" ++ nl
  ++ "                <span class=" ++ dq ++ "font-extrabold " ++ scoreColor ++ dq ++ ">" ++ nl
  ++ "                    " ++ scoreText ++ "%" ++ nl
  ++ "                </span>" ++ nl
  ++ "            </p>" ++ nl
  ++ "            <p class=" ++ dq ++ "text-sm text-gray-400 mt-1" ++ dq ++ ">" ++ conclusion ++ "</p>" ++ nl
  ++ "        </div>" ++ nl
  ++ "    ".

(** [${v.p || 'N/A'}] *)
Definition field_or_NA (v : value) (p : string) : result string :=
  (x <- Get v p ;; ToString (or_else x (VStr "N/A")))%result.

Definition createPlayerCardHTML (playerData : value) : result string :=
  (reco_score <- Get playerData "reco_score" ;;
   color <- scoreColor reco_score ;;
   name <- field_or_NA playerData "player_name" ;;
   position <- field_or_NA playerData "position" ;;
   team <- field_or_NA playerData "team" ;;
   text <- scoreText reco_score ;;
   reco_conclusion <- Get playerData "reco_conclusion" ;;
   conclusion <- ToString reco_conclusion ;;
   Ok (card name position team color text conclusion))%result.

(** ** renderPlayerList *)

(** The comparator of line 48: [(a, b) => b.reco_score - a.reco_score]. *)
Definition by_score (a b : value) : result number :=
  (sb <- Get b "reco_score" ;;
   sa <- Get a "reco_score" ;;
   nb <- ToNumber sb ;;
   na <- ToNumber sa ;;
   Ok (subtract nb na))%result.

(** SortCompare of the standard: a NaN from the comparator counts as +0. *)
Definition zero_if_NaN (v : number) : number :=
  match v with
  | NaN => Fin 0
  | _ => v
  end.

Definition SortCompare (x y : value) : result number :=
  (v <- by_score x y ;; Ok (zero_if_NaN v))%result.

Definition positive (v : number) : bool :=
  match lessThan (Fin 0) v with
  | Some true => true
  | _ => false
  end.

(** Array.prototype.sort.  The standard asks for a stable sort and fixes
    the outcome whenever the comparator is consistent; it is modelled by
    the stable insertion sort, which yields that outcome.  An exception of
    the comparator ends the sort.  Elements that are undefined go last and
    are not compared. *)
Fixpoint insert (x : value) (sorted : list value) : result (list value) :=
  match sorted with
  | [] => Ok [x]
  | y :: rest =>
      (v <- SortCompare x y ;;
       if positive v then (r <- insert x rest ;; Ok (y :: r))
       else Ok (x :: sorted))%result
  end.

Fixpoint insertion_sort (l : list value) : result (list value) :=
  match l with
  | [] => Ok []
  | x :: rest => (s <- insertion_sort rest ;; insert x s)%result
  end.

Definition is_undefined (v : value) : bool :=
  match v with
  | VUndefined => true
  | _ => false
  end.

Definition sort (l : list value) : result (list value) :=
  (s <- insertion_sort (filter (fun v => negb (is_undefined v)) l) ;;
   Ok (s ++ filter is_undefined l)%list)%result.

(** [dataArray.forEach(player => insertAdjacentHTML('beforeend', ...))] *)
Fixpoint forEach_card (l : list value) : M unit :=
  match l with
  | [] => ret tt
  | player :: rest =>
      (html <- lift (createPlayerCardHTML player) ;;
       write (insertAdjacentHTML_beforeend playerListContainer html) ;;
       forEach_card rest)%script
  end.

Definition no_skill_data : string :=
  "<p class=" ++ dq ++ "text-lg text-gray-400 text-center p-4" ++ dq
  ++ ">No skill position data found for that team this week.</p>".

Definition renderPlayerList (dataArray : list value) : M unit :=
  (write (set_innerHTML playerListContainer []) ;;
   teamName <- lift match dataArray with
                    | [] => Ok (VStr "Team")
                    | first :: _ => Get first "team"
                    end ;;
   weekDisplay <- lift match dataArray with
                       | [] => Ok (VStr "N/A")
                       | first :: _ =>
                           (w <- Get first "input_week" ;;
                            if ToBoolean w then Get first "input_week"
                            else Ok (VStr "N/A"))%result
                       end ;;
   team <- lift (ToString teamName) ;;
   week <- lift (ToString weekDisplay) ;;
   write (set_textContent playerListHeader
            ("Top Fantasy Options for the " ++ team ++ " (Week " ++ week ++ ")")) ;;
   sorted <- lift (sort dataArray) ;;
   (if (0 <? List.length sorted)%nat then forEach_card sorted
    else write (set_innerHTML playerListContainer [no_skill_data])) ;;
   write (set_display resultsContainer "none") ;;
   write (set_hidden recommendationsSection false))%script.

(** ** renderSinglePlayerDetail *)

(** Lines 70-83: the conclusion text and its classes. *)
Definition must_start : string * string :=
  ("ðŸ”¥ MUST START (Elite Potential)", "text-green-400 bg-green-900/50").
Definition flex : string * string :=
  ("ðŸŸ¢ FLEX / HIGH POTENTIAL START (Solid Play)", "text-yellow-400 bg-yellow-900/50").
Definition risky : string * string :=
  ("ðŸ”´ SIT / LOW FLEX (Risky Play)", "text-red-400 bg-red-900/50").

Definition conclusion (score : value) : result (string * string) :=
  (b75 <- ge score (Fin 75) ;;
   if b75 then Ok must_start
   else
     b45 <- ge score (Fin 45) ;;
     if b45 then Ok flex else Ok risky)%result.

(** What a textContent setter stores: the attribute is a nullable
    DOMString, so null and undefined empty the element. *)
Definition text (v : value) : result string :=
  match v with
  | VUndefined | VNull => Ok EmptyString
  | _ => ToString v
  end.

Definition renderSinglePlayerDetail (data : value) : M unit :=
  (write (set_innerHTML playerListContainer []) ;;
   write (set_textContent playerListHeader "Detailed Player Analysis") ;;
   score <- lift (Get data "reco_score") ;;
   c <- lift (conclusion score) ;;
   write (set_textContent "conclusion" (fst c)) ;;
   write (set_className "conclusion"
            ("font-body text-xl font-bold p-2 rounded-md " ++ snd c)) ;;
   name <- lift (x <- Get data "player_name" ;; ToString x)%result ;;
   team <- lift (x <- Get data "team" ;; ToString x)%result ;;
   position <- lift (x <- Get data "position" ;; ToString x)%result ;;
   write (set_textContent "player-name-display"
            (name ++ " (" ++ team ++ " - " ++ position ++ ")")) ;;
   fixed <- lift (call_toFixed2 "score.toFixed" score) ;;
   write (set_textContent "recommendation-score" (fixed ++ " /100")) ;;
   input_year <- lift (x <- Get data "input_year" ;; text x)%result ;;
   write (set_textContent "input-year" input_year) ;;
   input_week <- lift (x <- Get data "input_week" ;; text x)%result ;;
   write (set_textContent "input-week" input_week) ;;
   volume <- lift (x <- Get data "volume" ;; text x)%result ;;
   write (set_textContent "stat-volume" volume) ;;
   yards <- lift (x <- Get data "yards" ;; text x)%result ;;
   write (set_textContent "stat-yards" yards) ;;
   receptions <- lift (x <- Get data "receptions" ;; text x)%result ;;
   write (set_textContent "stat-receptions" receptions) ;;
   td <- lift (x <- Get data "td" ;; text x)%result ;;
   write (set_textContent "stat-td" td) ;;
   write (set_display resultsContainer "block") ;;
   write (set_hidden recommendationsSection false))%script.

(** ** The submit handler *)

(** What the network gives back: [fetch] rejects, or resolves to a response
    whose [json()] resolves to a value or rejects. *)
Inductive json_outcome : Type :=
| Parsed (v : value)
| Unparsed (e : exn).

Record response : Type := mkResponse {
  status : Z;
  statusText : string;
  json : json_outcome
}.

Definition ok (r : response) : bool :=
  ((200 <=? status r) && (status r <=? 299))%Z.

Inductive fetch_outcome : Type :=
| Resolved (r : response)
| Failed (e : exn).

Definition get : M page := fun p => (Ok p, p).

Definition idle_label : string := "Analyze Player/Team".
Definition fields_missing : string :=
  "Please enter a player name/team, week, and year.".
Definition null_player : string := "Error: Single player data was null.".
Definition no_data : string :=
  "No player or team data found for your search in the selected week/year.".
Definition unexpected_format : string :=
  "Unexpected error: Received data is not a recognized list format.".

(** Lines 127-169: up to the point where the handler awaits the response.
    The result is the request that was sent, if any. *)
Definition submit_begin : M (option request) :=
  (write (set_disabled submitButton true) ;;
   write (set_textContent buttonText "Analyzing...") ;;
   write (set_hidden spinner false) ;;
   write (set_hidden recommendationsSection true) ;;
   write (set_display resultsContainer "none") ;;
   write (set_textContent errorMessage EmptyString) ;;
   p <- get ;;
   let playerOrTeam := trim (value_ (getElementById p playerInput)) in
   let weekValue := trim (value_ (getElementById p weekInput)) in
   let yearValue := trim (value_ (getElementById p yearInput)) in
   if negb (ToBoolean (VStr playerOrTeam))
      || negb (ToBoolean (VStr weekValue))
      || negb (ToBoolean (VStr yearValue))
   then
     write (set_disabled submitButton false) ;;
     write (set_textContent buttonText idle_label) ;;
     write (set_hidden spinner true) ;;
     write (alert fields_missing) ;;
     ret None
   else
     let userInputs := mkUserInputs playerOrTeam yearValue weekValue in
     let r := mkRequest "/analyze_player" "POST" "application/json" userInputs in
     write (fetch r) ;;
     ret (Some r))%script.

Definition Array_isArray (v : value) : bool :=
  match v with
  | VArr _ => true
  | _ => false
  end.

Definition elements (v : value) : list value :=
  match v with
  | VArr l => l
  | _ => []
  end.

(** A property read whose value is only logged. *)
Definition logged (v : value) (p : string) : result unit :=
  match v with
  | VUndefined | VNull => Throw (TypeError (ReadOfNullish v p))
  | _ => Ok tt
  end.

(** Line 173: the parsed body of a failed response, or an object holding
    the status text when the body does not parse. *)
Definition errorData (response : response) : value :=
  match json response with
  | Parsed v => v
  | Unparsed _ => VObj [("error", VStr (statusText response))]
  end.

(** Lines 172-216: the body of the try block once [fetch] has settled.
    Logging to the console and scrolling the window write none of the
    elements above. *)
Definition try_block (net : fetch_outcome) : M unit :=
  match net with
  | Failed e => throw e
  | Resolved response =>
      if negb (ok response) then
        (error <- lift (Get (errorData response) "error") ;;
         message <- lift (ToString (or_else error (VStr (statusText response)))) ;;
         throw (mkExn "Error" message))%script
      else
        (data <- lift match json response with
                      | Parsed v => Ok v
                      | Unparsed e => Throw e
                      end ;;
         lift (logged data "length") ;;
         if Array_isArray data && (List.length (elements data) =? 1)%nat then
           let first := nth 0 (elements data) VUndefined in
           if ToBoolean first then renderSinglePlayerDetail first
           else
             write (set_textContent errorMessage null_player) ;;
             write (set_hidden recommendationsSection false)
         else if Array_isArray data && (1 <? List.length (elements data))%nat then
           renderPlayerList (elements data)
         else if Array_isArray data && (List.length (elements data) =? 0)%nat then
           write (set_textContent errorMessage no_data) ;;
           write (set_hidden recommendationsSection false)
         else
           write (set_textContent errorMessage unexpected_format) ;;
           write (set_hidden recommendationsSection false))%script
  end.

(** Lines 218-222. *)
Definition catch (error : exn) : M unit :=
  (write (set_textContent errorMessage (exn_message error)) ;;
   write (set_hidden recommendationsSection false))%script.

(** Lines 223-228. *)
Definition finally : M unit :=
  (write (set_disabled submitButton false) ;;
   write (set_textContent buttonText idle_label) ;;
   write (set_hidden spinner true))%script.

Definition try_catch_finally (body : M unit) (handler : exn -> M unit)
  (final : M unit) : M unit :=
  fun p =>
    let (r, p1) := body p in
    let (r', p2) := match r with
                    | Ok _ => (Ok tt, p1)
                    | Throw e => handler e p1
                    end in
    match final p2 with
    | (Ok _, p3) => (r', p3)
    | (Throw e, p3) => (Throw e, p3)
    end.

(** The handler after the await. *)
Definition submit_resume (net : fetch_outcome) : M unit :=
  try_catch_finally (try_block net) catch finally.

(** One submission, run to completion with the network's answer. *)
Definition submit (net : fetch_outcome) : M unit :=
  (sent <- submit_begin ;;
   match sent with
   | None => ret tt
   | Some _ => submit_resume net
   end)%script.

End Script.

(** ** An engine to run the model on *)

(** Messages are worded as V8 words them.  Numerals are written and read in
    the plain decimal notation of the integers, which is what the standard
    gives for an integer below 10^21; the runs below use no other numeral. *)
Definition v8_message (f : fault) : string :=
  match f with
  | ReadOfNullish VNull p =>
      "Cannot read properties of null (reading '" ++ p ++ "')"
  | ReadOfNullish _ p =>
      "Cannot read properties of undefined (reading '" ++ p ++ "')"
  | NotAFunction callee => callee ++ " is not a function"
  | NoPrimitive => "Cannot convert object to primitive value"
  end.

Definition integer_numeral (q : Q) : string :=
  (if Qle_bool 0 q then EmptyString else "-") ++ digits (Z.abs (Qfloor q)).

Definition read_integer (s : string) : number :=
  match NilZero.uint_of_string s with
  | Some u => Fin (inject_Z (Z.of_N (N.of_uint u)))
  | None => NaN
  end.

Definition engine : Host := {|
  NumberToString := integer_numeral;
  StringToNumber := read_integer;
  fault_message := v8_message
|}.

(** A page as it is before the first submission, with the three inputs
    filled in. *)
Definition blank : element :=
  mkElement EmptyString false EmptyString EmptyString false EmptyString [].

Definition input (s : string) : element :=
  mkElement s false EmptyString EmptyString false EmptyString [].

Definition fresh_page (player week year : string) : page :=
  mkPage (fun id =>
            if String.eqb id playerInput then input player
            else if String.eqb id weekInput then input week
            else if String.eqb id yearInput then input year
            else if String.eqb id buttonText then
              mkElement EmptyString false idle_label EmptyString false
                        EmptyString []
            else if String.eqb id spinner then
              mkElement EmptyString false EmptyString EmptyString true
                        EmptyString []
            else if String.eqb id recommendationsSection then
              mkElement EmptyString false EmptyString EmptyString true
                        EmptyString []
            else blank)
         [] [].

(** A record of the data model, with the fields the views read. *)
Definition player (name team position : string) (score : Q) (week : string)
  : value :=
  VObj [ ("player_name", VStr name); ("team", VStr team);
         ("position", VStr position); ("reco_score", VNum (Fin score));
         ("reco_conclusion", VStr "Start"); ("input_week", VStr week);
         ("input_year", VStr "2024"); ("volume", VNum (Fin 7));
         ("yards", VNum (Fin 81)); ("receptions", VNum (Fin 5));
         ("td", VNum (Fin 1)) ].

(** ** The order of scores *)

(** The order of the extended reals on the numbers other than NaN. *)
Definition num_le (x y : number) : Prop :=
  match x, y with
  | NaN, _ | _, NaN => False
  | NInf, _ | _, PInf => True
  | Fin a, Fin b => (a <= b)%Q
  | _, _ => False
  end.

Definition num_lt (x y : number) : Prop :=
  match x, y with
  | NaN, _ | _, NaN => False
  | PInf, _ | _, NInf => False
  | Fin a, Fin b => (a < b)%Q
  | _, _ => True
  end.

(** ** Records of the data model *)

Definition is_primitive (v : value) : bool :=
  match v with
  | VArr _ | VObj _ => false
  | _ => true
  end.

(** A PlayerRecord: an object whose reco_score is a number and whose other
    fields, where present, are strings, numbers, booleans or null. *)
Definition is_player_record (v : value) : bool :=
  match v with
  | VObj props =>
      match lookup "reco_score" props with
      | VNum NaN => false
      | VNum _ => true
      | _ => false
      end
      && forallb (fun f => is_primitive (lookup f props))
           [ "player_name"; "team"; "position"; "reco_conclusion";
             "input_week"; "input_year"; "volume"; "yards"; "receptions";
             "td" ]
  | _ => false
  end.

Definition score_of (v : value) : number :=
  match v with
  | VObj props =>
      match lookup "reco_score" props with
      | VNum n => n
      | _ => NaN
      end
  | _ => NaN
  end.

(** [a] may stand before [b] in a list that descends by score. *)
Definition descending (a b : value) : Prop := num_le (score_of b) (score_of a).

(** The page after the writes of renderSinglePlayerDetail. *)
Definition detail_page (c : string * string)
  (name team position fixed input_year input_week volume yards receptions td
     : string) (p : page) : page :=
  set_hidden recommendationsSection false
    (set_display resultsContainer "block"
       (set_textContent "stat-td" td
          (set_textContent "stat-receptions" receptions
             (set_textContent "stat-yards" yards
                (set_textContent "stat-volume" volume
                   (set_textContent "input-week" input_week
                      (set_textContent "input-year" input_year
                         (set_textContent "recommendation-score"
                            (fixed ++ " /100")
                            (set_textContent "player-name-display"
                               (name ++ " (" ++ team ++ " - " ++ position ++ ")")
                               (set_className "conclusion"
                                  ("font-body text-xl font-bold p-2 rounded-md "
                                   ++ snd c)
                                  (set_textContent "conclusion" (fst c)
                                     (set_textContent playerListHeader
                                        "Detailed Player Analysis"
                                        (set_innerHTML playerListContainer []
                                           p))))))))))))).

Definition all_records (l : list value) : Prop :=
  Forall (fun v => is_player_record v = true) l.

(** ** States of the page *)

(** The submit control at rest. *)
Definition idle (p : page) : Prop :=
  disabled (dom p submitButton) = false /\
  textContent (dom p buttonText) = idle_label /\
  hidden (dom p spinner) = true.

(** One of the three inputs is empty once trimmed. *)
Definition inputs_missing (p : page) : Prop :=
  trim (value_ (dom p playerInput)) = EmptyString \/
  trim (value_ (dom p weekInput)) = EmptyString \/
  trim (value_ (dom p yearInput)) = EmptyString.

(** [html] is the card of [v]. *)
Definition rendered_as (host : Host) (v : value) (html : string) : Prop :=
  createPlayerCardHTML host v = Ok html.

(** A page with the form filled in, a successful response and a response
    body with the scores 10, 90, 50. *)
Definition filled : page := fresh_page "Chiefs" "3" "2024".

Definition success (body : value) : fetch_outcome :=
  Resolved (mkResponse 200 "OK" (Parsed body)).

Definition three_scores : list value :=
  [ player "Rice" "KC" "WR" 10 "3"; player "Kelce" "KC" "TE" 90 "3";
    player "Pacheco" "KC" "RB" 50 "3" ].

(** More responses to run: one record, a record without a name, a record
    without a score, and three records of which two tie. *)
Definition kelce : value := player "Kelce" "KC" "TE" 90 "3".

Definition nameless : list (string * value) := [("reco_score", VNum (Fin 80))].

Definition scoreless : list (string * value) :=
  [("player_name", VStr "Rice"); ("team", VStr "KC"); ("position", VStr "WR")].

Definition tied : list value :=
  [ player "Rice" "KC" "WR" 50 "3"; player "Kelce" "KC" "TE" 90 "3";
    player "Pacheco" "KC" "RB" 50 "3" ].

(** ** What a piece of script leaves alone *)

Declare Scope script_scope.
Delimit Scope script_scope with script.
Notation "x <- m ;; k" := (bind m (fun x => k))
  (at level 61, m at next level, right associativity) : script_scope.
Notation "m ;; k" := (bind m (fun _ => k))
  (at level 61, right associativity) : script_scope.

(** [m] leaves the observation [f] of the page as it was, however it ends. *)
Definition preserves {A B : Type} (f : page -> B) (m : M A) : Prop :=
  forall p : page, f (snd (m p)) = f p.

(** [m] leaves [f] as it was whenever it throws. *)
Definition kept_on_throw {A B : Type} (f : page -> B) (m : M A) : Prop :=
  forall (p p1 : page) (e : exn), m p = (Throw e, p1) -> f p1 = f p.

(** The alerts and the requests so far. *)
Definition logs (p : page) : list string * list request :=
  (alerts p, requests p).

(** The value of an element, which is what the user typed into an input. *)
Definition typed (id : string) (p : page) : string := value_ (dom p id).

(** The display style of the detail panel. *)
Definition detail_display (p : page) : string :=
  display (dom p resultsContainer).

(** Lines 48-60: renderPlayerList once the header is written. *)
Definition after_header (host : Host) (dataArray : list value) : M unit :=
  (sorted <- lift (sort host dataArray) ;;
   (if (0 <? List.length sorted)%nat then forEach_card host sorted
    else write (set_innerHTML playerListContainer [no_skill_data])) ;;
   write (set_display resultsContainer "none") ;;
   write (set_hidden recommendationsSection false))%script.

(** Equality of scores, and the records that have a given score. *)
Definition num_eqb (x y : number) : bool :=
  match x, y with
  | Fin a, Fin b => Qeq_bool a b
  | PInf, PInf | NInf, NInf => true
  | _, _ => false
  end.

Definition scored (n : number) (v : value) : bool := num_eqb (score_of v) n.

(** An element of a response that is a record of the data model or null. *)
Definition record_or_null (v : value) : Prop :=
  is_player_record v = true \/ v = VNull.

Definition is_null (v : value) : bool :=
  match v with
  | VNull => true
  | _ => false
  end.

(** What the comparator throws on a null element. *)
Definition sort_fault (host : Host) : exn :=
  TypeError host (ReadOfNullish VNull "reco_score").

(** The elements a failed request writes to. *)
Definition written_on_failure (id : string) : bool :=
  String.eqb id errorMessage || String.eqb id recommendationsSection
  || String.eqb id submitButton || String.eqb id buttonText
  || String.eqb id spinner.

(** A string of blanks. *)
Fixpoint spaces (n : nat) : string :=
  match n with
  | O => EmptyString
  | S k => String " " (spaces k)
  end.

Ltac step E := rewrite E; cbn [bind lift write rbind].

Section Properties.

Variable host : Host.

Lemma ge_true_iff (s : number) (t : Q) :
  ge host (VNum s) (Fin t) = Ok true <-> num_le (Fin t) s.
Proof.
  destruct s as [ | | | q]; cbn; try (split; [discriminate | tauto]);
    try (split; [tauto | reflexivity]).
  destruct (Qle_bool t q) eqn:E; cbn.
  - apply Qle_bool_iff in E. tauto.
  - split; [discriminate | ].
    intro H. apply Qle_bool_iff in H. congruence.
Qed.

Lemma ge_false_iff (s : number) (t : Q) :
  s <> NaN -> ge host (VNum s) (Fin t) = Ok false <-> num_lt s (Fin t).
Proof.
  intro Hs. destruct s as [ | | | q]; cbn; try congruence;
    try (split; [discriminate | tauto]); try (split; [tauto | reflexivity]).
  destruct (Qle_bool t q) eqn:E; cbn.
  - apply Qle_bool_iff in E. split; [discriminate | ]. intro H. lra.
  - split; [intros _ | reflexivity].
    apply Qnot_le_lt. intro H. apply Qle_bool_iff in H. congruence.
Qed.

Lemma ge_total (s : number) (t : Q) :
  exists b : bool, ge host (VNum s) (Fin t) = Ok b.
Proof.
  unfold ge; cbn. eexists; reflexivity.
Qed.

(** C1.  For every score that is a number (any but NaN, which JSON cannot
    carry), the detail view's conclusion is the "must start" text and class
    iff the score is at least 75, the "flex" one iff it is at least 45 and
    below 75, and the "sit / risky" one iff it is below 45; the colour of
    the score on a list card is green, yellow and red under the very same
    conditions; 75 and 45 themselves fall in the higher tier. *)
Theorem score_tiers (s : number) :
  s <> NaN ->
  (conclusion host (VNum s) = Ok must_start <-> num_le (Fin 75) s) /\
  (conclusion host (VNum s) = Ok flex
     <-> num_le (Fin 45) s /\ num_lt s (Fin 75)) /\
  (conclusion host (VNum s) = Ok risky <-> num_lt s (Fin 45)) /\
  (scoreColor host (VNum s) = Ok "text-green-500" <-> num_le (Fin 75) s) /\
  (scoreColor host (VNum s) = Ok "text-yellow-400"
     <-> num_le (Fin 45) s /\ num_lt s (Fin 75)) /\
  (scoreColor host (VNum s) = Ok "text-red-500" <-> num_lt s (Fin 45)) /\
  conclusion host (VNum (Fin 75)) = Ok must_start /\
  scoreColor host (VNum (Fin 75)) = Ok "text-green-500" /\
  conclusion host (VNum (Fin 45)) = Ok flex /\
  scoreColor host (VNum (Fin 45)) = Ok "text-yellow-400".
Proof.
  intro Hs.
  assert (M : num_le (Fin 75) s -> num_le (Fin 45) s).
  { destruct s; cbn; try tauto. intro; lra. }
  assert (X75 : num_lt s (Fin 75) -> num_le (Fin 75) s -> False).
  { destruct s; cbn; try tauto. intros; lra. }
  assert (X45 : num_lt s (Fin 45) -> num_le (Fin 45) s -> False).
  { destruct s; cbn; try tauto. intros; lra. }
  unfold conclusion, scoreColor.
  destruct (ge_total s 75) as [b75 E75], (ge_total s 45) as [b45 E45].
  rewrite E75, E45. cbn.
  assert (T75 : if b75 then num_le (Fin 75) s else num_lt s (Fin 75)).
  { destruct b75; [apply ge_true_iff | apply ge_false_iff]; assumption. }
  assert (T45 : if b45 then num_le (Fin 45) s else num_lt s (Fin 45)).
  { destruct b45; [apply ge_true_iff | apply ge_false_iff]; assumption. }
  destruct b75, b45; repeat split; intros;
    solve [ reflexivity | discriminate | tauto ].
Qed.

(** *** The submit control *)

Lemma try_catch_finally_idle (body : M unit) (p : page) :
  fst (try_catch_finally body catch finally p) = Ok tt /\
  idle (snd (try_catch_finally body catch finally p)).
Proof.
  unfold try_catch_finally.
  destruct (body p) as [[[] | e] p1]; repeat split.
Qed.

Lemma not_ToBoolean_VStr (s : string) :
  negb (ToBoolean (VStr s)) = true <-> s = EmptyString.
Proof. destruct s; cbn; split; congruence. Qed.

Lemma submit_begin_missing (p : page) :
  inputs_missing p ->
  fst (submit_begin p) = Ok None /\
  requests (snd (submit_begin p)) = requests p /\
  alerts (snd (submit_begin p)) = (alerts p ++ [fields_missing])%list /\
  idle (snd (submit_begin p)) /\
  textContent (dom (snd (submit_begin p)) errorMessage) = EmptyString /\
  hidden (dom (snd (submit_begin p)) recommendationsSection) = true.
Proof.
  intro H.
  assert (C : negb (ToBoolean (VStr (trim (value_ (dom p playerInput)))))
              || negb (ToBoolean (VStr (trim (value_ (dom p weekInput)))))
              || negb (ToBoolean (VStr (trim (value_ (dom p yearInput)))))
              = true).
  { unfold inputs_missing in H.
    rewrite !orb_true_iff, !not_ToBoolean_VStr. tauto. }
  unfold submit_begin, bind, write, get, getElementById; cbn.
  cbn in C. rewrite C; cbn. repeat split.
Qed.

(** With the three inputs filled in, a submission is the handler after the
    await, run on the page in its loading state with the request logged. *)
Lemma submit_after_begin (net : fetch_outcome) (p : page) :
  ~ inputs_missing p ->
  exists r : request,
    fst (submit_begin p) = Ok (Some r) /\
    payload r = mkUserInputs (trim (value_ (dom p playerInput)))
                             (trim (value_ (dom p yearInput)))
                             (trim (value_ (dom p weekInput))) /\
    requests (snd (submit_begin p)) = (requests p ++ [r])%list /\
    submit host net p = submit_resume host net (snd (submit_begin p)).
Proof.
  intro H.
  assert (C : negb (ToBoolean (VStr (trim (value_ (dom p playerInput)))))
              || negb (ToBoolean (VStr (trim (value_ (dom p weekInput)))))
              || negb (ToBoolean (VStr (trim (value_ (dom p yearInput)))))
              = false).
  { unfold inputs_missing in H.
    apply not_true_is_false. rewrite !orb_true_iff, !not_ToBoolean_VStr.
    tauto. }
  unfold submit, bind at 1.
  unfold submit_begin, bind, write, get, getElementById; cbn.
  cbn in C. rewrite C; cbn. eexists. repeat split.
Qed.

(** C4.  When one of the three trimmed inputs is empty, the submission
    sends no request, whatever the network would have answered, and it ends
    with the submit control enabled, its label restored, the spinner hidden
    and one more alert shown to the user. *)
Theorem empty_field_sends_nothing (net : fetch_outcome) (p : page) :
  inputs_missing p ->
  fst (submit host net p) = Ok tt /\
  requests (snd (submit host net p)) = requests p /\
  alerts (snd (submit host net p)) = (alerts p ++ [fields_missing])%list /\
  disabled (dom (snd (submit host net p)) submitButton) = false /\
  textContent (dom (snd (submit host net p)) buttonText) = idle_label /\
  hidden (dom (snd (submit host net p)) spinner) = true.
Proof.
  intro H.
  destruct (submit_begin_missing p H) as (B & R & A & I & _).
  unfold submit, bind.
  destruct (submit_begin p) as [r p1]; cbn in *. subst r; cbn.
  unfold idle in I. tauto.
Qed.

(** C6.  Once the request has settled, in whatever way, the handler
    completes without an exception and leaves the submit control enabled,
    its label at the idle text and the spinner hidden; the same holds of a
    whole submission. *)
Theorem control_restored (net : fetch_outcome) (p : page) :
  (fst (submit_resume host net p) = Ok tt /\
   disabled (dom (snd (submit_resume host net p)) submitButton) = false /\
   textContent (dom (snd (submit_resume host net p)) buttonText) = idle_label /\
   hidden (dom (snd (submit_resume host net p)) spinner) = true) /\
  (fst (submit host net p) = Ok tt /\
   disabled (dom (snd (submit host net p)) submitButton) = false /\
   textContent (dom (snd (submit host net p)) buttonText) = idle_label /\
   hidden (dom (snd (submit host net p)) spinner) = true).
Proof.
  split.
  - apply try_catch_finally_idle.
  - unfold submit, bind.
    destruct (submit_begin p) as [[[r | ] | e] p1] eqn:B.
    + apply try_catch_finally_idle.
    + assert (I : idle (snd (submit_begin p))).
      { revert B. unfold submit_begin, bind, write, get, getElementById; cbn.
        match goal with
        | |- context [if ?c then _ else _] => destruct c
        end; cbn; intro B; [repeat split | discriminate B]. }
      rewrite B in I. cbn. split; [reflexivity | exact I].
    + exfalso. revert B.
      unfold submit_begin, bind, write, get, getElementById; cbn.
      match goal with
      | |- context [if ?c then _ else _] => destruct c
      end; cbn; discriminate.
Qed.

(** *** The score on a list card *)

Lemma ToNumber_falsy (v : value) :
  ToBoolean v = false -> exists n : number, ToNumber host v = Ok n.
Proof.
  destruct v as [ | | [ | ] | n | s | l | props]; cbn; intro H;
    try discriminate H; eexists; reflexivity.
Qed.

Lemma scoreColor_falsy (v : value) :
  ToBoolean v = false -> exists color : string, scoreColor host v = Ok color.
Proof.
  intro H. destruct (ToNumber_falsy v H) as [n E].
  unfold scoreColor, ge. rewrite E; cbn.
  destruct (lessThan n (Fin 75)) as [[ | ] | ]; cbn;
    destruct (lessThan n (Fin 45)) as [[ | ] | ]; cbn; eexists; reflexivity.
Qed.

(** C9.  A score that is falsy (0, null, undefined, ...) is shown on its
    card as "--" and not as a number: the score text is "--", and so is the
    score in the card built from any record holding that score, whenever
    the other fields can be written out.  Zero formatted to two decimals
    would have read "0.00".  A number is formatted to two decimals when it
    is truthy, and a score text other than "--" is only made from a truthy
    score. *)
Theorem falsy_score_shows_dashes (reco_score : value) :
  ToBoolean reco_score = false ->
  scoreText host reco_score = Ok "--" /\
  (forall (props : list (string * value))
          (name position team reco_conclusion : string),
      lookup "reco_score" props = reco_score ->
      field_or_NA host (VObj props) "player_name" = Ok name ->
      field_or_NA host (VObj props) "position" = Ok position ->
      field_or_NA host (VObj props) "team" = Ok team ->
      ToString host (lookup "reco_conclusion" props) = Ok reco_conclusion ->
      exists color : string,
        createPlayerCardHTML host (VObj props)
        = Ok (card name position team color "--" reco_conclusion)) /\
  toFixed host 2 (Fin 0) = "0.00" /\
  (forall n : number,
      ToBoolean (VNum n) = true ->
      scoreText host (VNum n) = Ok (toFixed host 2 n)) /\
  (forall (v : value) (s : string),
      scoreText host v = Ok s -> s <> "--" -> ToBoolean v = true).
Proof.
  intro F. repeat split.
  - unfold scoreText. rewrite F. reflexivity.
  - intros props name position team reco_conclusion S N P T C.
    destruct (scoreColor_falsy reco_score F) as [color E].
    exists color. unfold createPlayerCardHTML.
    change (Get host (VObj props) "reco_score")
      with (Ok (lookup "reco_score" props)).
    change (Get host (VObj props) "reco_conclusion")
      with (Ok (lookup "reco_conclusion" props)).
    cbn [rbind]. rewrite S, E, N, P, T, C. cbn [rbind].
    unfold scoreText. rewrite F. reflexivity.
  - intros n T. unfold scoreText. rewrite T. reflexivity.
  - intros v s E D. unfold scoreText in E.
    destruct (ToBoolean v); [reflexivity | ].
    injection E as E. congruence.
Qed.

(** *** What the handler shows when the try block throws or returns *)

(** Whatever the try block throws is caught, and its message shown. *)
Lemma resume_of_throw (net : fetch_outcome) (p p1 : page) (e : exn) :
  try_block host net p = (Throw e, p1) ->
  textContent (dom (snd (submit_resume host net p)) errorMessage)
  = exn_message e /\
  hidden (dom (snd (submit_resume host net p)) recommendationsSection) = false.
Proof.
  intro E. unfold submit_resume, try_catch_finally. rewrite E. split; reflexivity.
Qed.

Lemma try_block_not_ok (r : response) (p : page) :
  ok r = false ->
  try_block host (Resolved r) p
  = (match (error <- Get host (errorData r) "error" ;;
            ToString host (or_else error (VStr (statusText r))))%result with
     | Ok message => Throw (mkExn "Error" message)
     | Throw e => Throw e
     end, p).
Proof.
  intro H. unfold try_block. rewrite H. cbn [negb].
  unfold bind, lift, throw.
  destruct (Get host _ "error") as [error | e]; cbn [rbind]; [ | reflexivity].
  destruct (ToString host _); reflexivity.
Qed.

(** The fallback of line 174 on every body but null: a parsed body whose
    error property is missing or falsy leaves the status text. *)
Lemma status_text_fallback (st : Z) (stx : string) (v : value) (p : page) :
  ok (mkResponse st stx (Parsed v)) = false ->
  v <> VNull -> v <> VUndefined ->
  (forall error, Get host v "error" = Ok error -> ToBoolean error = false) ->
  textContent
    (dom (snd (submit_resume host (Resolved (mkResponse st stx (Parsed v))) p))
         errorMessage) = stx.
Proof.
  intros H N U F.
  assert (G : exists error, Get host v "error" = Ok error).
  { destruct v; try congruence; eexists; reflexivity. }
  destruct G as [error G].
  unfold submit_resume, try_catch_finally.
  rewrite (try_block_not_ok _ p H). unfold errorData; cbn [json statusText].
  rewrite G. cbn [rbind]. unfold or_else. rewrite (F error G). reflexivity.
Qed.

(** C5, as the code has it.  After a non-2xx response, a body that parses
    to an object whose error property is a non-empty string shows that
    string, and a body that does not parse shows the status text.  (An
    empty error string is falsy, so line 174 falls back to the status
    text.) *)
Theorem failed_response_text (st : Z) (stx : string) (body : json_outcome)
  (p : page) :
  ok (mkResponse st stx body) = false ->
  let p' := snd (submit_resume host (Resolved (mkResponse st stx body)) p) in
  (forall (props : list (string * value)) (msg : string),
      body = Parsed (VObj props) ->
      lookup "error" props = VStr msg ->
      msg <> EmptyString ->
      textContent (dom p' errorMessage) = msg) /\
  (forall e : exn,
      body = Unparsed e -> textContent (dom p' errorMessage) = stx) /\
  (forall props : list (string * value),
      body = Parsed (VObj props) ->
      lookup "error" props = VStr EmptyString ->
      textContent (dom p' errorMessage) = stx).
Proof.
  intros H p'. subst p'. repeat split.
  - intros props msg B L N. subst body.
    unfold submit_resume, try_catch_finally.
    rewrite (try_block_not_ok _ p H). unfold errorData; cbn [json statusText Get].
    rewrite L. cbn [rbind]. unfold or_else.
    destruct msg; [congruence | reflexivity].
  - intros e B. subst body.
    unfold submit_resume, try_catch_finally.
    rewrite (try_block_not_ok _ p H). unfold errorData; cbn [json statusText].
    destruct stx; reflexivity.
  - intros props B L. subst body.
    apply status_text_fallback; try assumption; try discriminate.
    intros error G. cbn in G. injection G as G. subst error. rewrite L.
    reflexivity.
Qed.

(** C10 at a body that is the JSON value null.  Reading its error property
    throws inside the try block, and the text shown is the message of that
    TypeError, whatever the status text is. *)
Theorem null_body_shows_engine_message (st : Z) (stx : string) (p : page) :
  ok (mkResponse st stx (Parsed VNull)) = false ->
  textContent
    (dom (snd (submit_resume host
                 (Resolved (mkResponse st stx (Parsed VNull))) p))
         errorMessage)
  = fault_message host (ReadOfNullish VNull "error").
Proof.
  intro H. unfold submit_resume, try_catch_finally.
  rewrite (try_block_not_ok _ p H). reflexivity.
Qed.

(** *** The error paths *)

Lemma try_block_unparsed (st : Z) (stx : string) (e : exn) (p : page) :
  ok (mkResponse st stx (Unparsed e)) = true ->
  try_block host (Resolved (mkResponse st stx (Unparsed e))) p = (Throw e, p).
Proof. intro H. unfold try_block. rewrite H. reflexivity. Qed.

Lemma try_block_empty (st : Z) (stx : string) (p : page) :
  ok (mkResponse st stx (Parsed (VArr []))) = true ->
  try_block host (Resolved (mkResponse st stx (Parsed (VArr [])))) p
  = (Ok tt, set_hidden recommendationsSection false
              (set_textContent errorMessage no_data p)).
Proof. intro H. unfold try_block. rewrite H. reflexivity. Qed.

Lemma try_block_not_array (st : Z) (stx : string) (v : value) (p : page) :
  ok (mkResponse st stx (Parsed v)) = true ->
  Array_isArray v = false ->
  try_block host (Resolved (mkResponse st stx (Parsed v))) p
  = match v with
    | VUndefined | VNull => (Throw (TypeError host (ReadOfNullish v "length")), p)
    | _ => (Ok tt, set_hidden recommendationsSection false
                     (set_textContent errorMessage unexpected_format p))
    end.
Proof.
  intros H A. unfold try_block. rewrite H.
  destruct v; try discriminate A; reflexivity.
Qed.

(** C7, as the code has it.  Every error path that follows a request --
    a rejected fetch, a non-2xx status, a body that does not parse, an
    empty array, a body that is not an array -- writes its message to the
    error-message element and reveals the results section.  A validation
    failure does neither: it shows an alert, and leaves the error-message
    element empty and the results section hidden. *)
Theorem error_paths_show_message (p : page) :
  (forall net : fetch_outcome,
      inputs_missing p ->
      let p' := snd (submit host net p) in
      alerts p' = (alerts p ++ [fields_missing])%list /\
      textContent (dom p' errorMessage) = EmptyString /\
      hidden (dom p' recommendationsSection) = true) /\
  (forall e : exn,
      let p' := snd (submit_resume host (Failed e) p) in
      textContent (dom p' errorMessage) = exn_message e /\
      hidden (dom p' recommendationsSection) = false) /\
  (forall r : response,
      ok r = false ->
      let p' := snd (submit_resume host (Resolved r) p) in
      exists e : exn,
        fst (try_block host (Resolved r) p) = Throw e /\
        textContent (dom p' errorMessage) = exn_message e /\
        hidden (dom p' recommendationsSection) = false) /\
  (forall (st : Z) (stx : string) (e : exn),
      ok (mkResponse st stx (Unparsed e)) = true ->
      let p' := snd (submit_resume host
                       (Resolved (mkResponse st stx (Unparsed e))) p) in
      textContent (dom p' errorMessage) = exn_message e /\
      hidden (dom p' recommendationsSection) = false) /\
  (forall (st : Z) (stx : string),
      ok (mkResponse st stx (Parsed (VArr []))) = true ->
      let p' := snd (submit_resume host
                       (Resolved (mkResponse st stx (Parsed (VArr [])))) p) in
      textContent (dom p' errorMessage) = no_data /\
      hidden (dom p' recommendationsSection) = false) /\
  (forall (st : Z) (stx : string) (v : value),
      ok (mkResponse st stx (Parsed v)) = true ->
      Array_isArray v = false ->
      let p' := snd (submit_resume host
                       (Resolved (mkResponse st stx (Parsed v))) p) in
      textContent (dom p' errorMessage)
      = match v with
        | VUndefined | VNull => fault_message host (ReadOfNullish v "length")
        | _ => unexpected_format
        end /\
      hidden (dom p' recommendationsSection) = false).
Proof.
  repeat apply conj.
  - intros net H p'. subst p'.
    destruct (submit_begin_missing p H) as (B & _ & A & _ & T & S).
    unfold submit, bind.
    destruct (submit_begin p) as [r p1]; cbn in *. subst r. cbn. tauto.
  - intros e p'. subst p'. split; reflexivity.
  - intros r H p'. subst p'.
    unfold submit_resume, try_catch_finally.
    rewrite (try_block_not_ok r p H).
    destruct (rbind _ _) as [message | e]; eexists; repeat split.
  - intros st stx e H p'. subst p'.
    unfold submit_resume, try_catch_finally.
    rewrite (try_block_unparsed st stx e p H). split; reflexivity.
  - intros st stx H p'. subst p'.
    unfold submit_resume, try_catch_finally.
    rewrite (try_block_empty st stx p H). split; reflexivity.
  - intros st stx v H A p'. subst p'.
    unfold submit_resume, try_catch_finally.
    rewrite (try_block_not_array st stx v p H A).
    destruct v; try discriminate A; split; reflexivity.
Qed.

(** What an empty array leaves of the page: the no-data message is shown in
    the revealed results section; nothing is rendered, so the list container,
    its header and the detail panel stay as the previous submissions left
    them. *)
Lemma empty_array_page (st : Z) (stx : string) (p : page) :
  ok (mkResponse st stx (Parsed (VArr []))) = true ->
  let p' := snd (submit_resume host
                   (Resolved (mkResponse st stx (Parsed (VArr [])))) p) in
  fst (try_block host (Resolved (mkResponse st stx (Parsed (VArr [])))) p)
  = Ok tt /\
  textContent (dom p' errorMessage) = no_data /\
  hidden (dom p' recommendationsSection) = false /\
  display (dom p' resultsContainer) = display (dom p resultsContainer) /\
  innerHTML (dom p' playerListContainer) = innerHTML (dom p playerListContainer) /\
  textContent (dom p' playerListHeader) = textContent (dom p playerListHeader).
Proof.
  intros H p'. subst p'.
  unfold submit_resume, try_catch_finally.
  rewrite (try_block_empty st stx p H). repeat split.
Qed.

(** *** The detail view *)

Lemma ToString_primitive (v : value) :
  is_primitive v = true -> exists s : string, ToString host v = Ok s.
Proof.
  destruct v as [ | | [ | ] | n | s | l | props]; cbn; intro H;
    try discriminate H; eexists; reflexivity.
Qed.

Lemma text_primitive (v : value) :
  is_primitive v = true -> exists s : string, text host v = Ok s.
Proof.
  destruct v as [ | | [ | ] | n | s | l | props]; cbn; intro H;
    try discriminate H; eexists; reflexivity.
Qed.

Lemma conclusion_total (n : number) :
  exists c : string * string, conclusion host (VNum n) = Ok c.
Proof.
  unfold conclusion.
  destruct (ge_total n 75) as [[ | ] E75], (ge_total n 45) as [[ | ] E45];
    rewrite E75; cbn [rbind]; try rewrite E45; cbn [rbind];
    eexists; reflexivity.
Qed.

Lemma renderSinglePlayerDetail_written (props : list (string * value))
  (n : number) (c : string * string)
  (name team position input_year input_week volume yards receptions td
     : string) (p : page) :
  lookup "reco_score" props = VNum n ->
  conclusion host (VNum n) = Ok c ->
  ToString host (lookup "player_name" props) = Ok name ->
  ToString host (lookup "team" props) = Ok team ->
  ToString host (lookup "position" props) = Ok position ->
  text host (lookup "input_year" props) = Ok input_year ->
  text host (lookup "input_week" props) = Ok input_week ->
  text host (lookup "volume" props) = Ok volume ->
  text host (lookup "yards" props) = Ok yards ->
  text host (lookup "receptions" props) = Ok receptions ->
  text host (lookup "td" props) = Ok td ->
  renderSinglePlayerDetail host (VObj props) p
  = (Ok tt, detail_page c name team position (toFixed host 2 n) input_year
              input_week volume yards receptions td p).
Proof.
  intros S C N T P IY IW V Y R D.
  unfold renderSinglePlayerDetail. cbn [bind lift write rbind Get].
  step S. step C. step N. step T. step P.
  cbn [call_toFixed2]. step IY. step IW. step V. step Y. step R. step D.
  reflexivity.
Qed.

Lemma record_fields (v : value) :
  is_player_record v = true ->
  exists (props : list (string * value)) (n : number),
    v = VObj props /\ lookup "reco_score" props = VNum n /\ n <> NaN /\
    is_primitive (lookup "player_name" props) = true /\
    is_primitive (lookup "team" props) = true /\
    is_primitive (lookup "position" props) = true /\
    is_primitive (lookup "reco_conclusion" props) = true /\
    is_primitive (lookup "input_week" props) = true /\
    is_primitive (lookup "input_year" props) = true /\
    is_primitive (lookup "volume" props) = true /\
    is_primitive (lookup "yards" props) = true /\
    is_primitive (lookup "receptions" props) = true /\
    is_primitive (lookup "td" props) = true.
Proof.
  destruct v as [ | | | | | | props]; try discriminate.
  unfold is_player_record. cbn [forallb].
  rewrite !andb_true_iff.
  intros (S & A & B & C & D & E & F & G & H & I & J & _).
  destruct (lookup "reco_score" props) as [ | | | n | | | ] eqn:L;
    try discriminate S.
  exists props, n. repeat split; try assumption.
  intro X. subst n. discriminate S.
Qed.

(** C2, as the code has it.  After a successful response whose body is an
    array of one element: when the element is a record of the data model,
    the handler renders the detail view from it -- the detail panel and the
    results section are shown, the list container is emptied, and the
    conclusion, name, score, input and stat fields are written from the
    record; when the element is null (or otherwise falsy), line 190 shows
    "Error: Single player data was null." instead and renders nothing. *)
Theorem single_element_response (st : Z) (stx : string) (first : value)
  (p : page) :
  ok (mkResponse st stx (Parsed (VArr [first]))) = true ->
  let net := Resolved (mkResponse st stx (Parsed (VArr [first]))) in
  let p' := snd (submit_resume host net p) in
  (is_player_record first = true ->
   exists (props : list (string * value)) (n : number) (c : string * string)
          (name team position : string),
     first = VObj props /\
     lookup "reco_score" props = VNum n /\
     conclusion host (VNum n) = Ok c /\
     ToString host (lookup "player_name" props) = Ok name /\
     ToString host (lookup "team" props) = Ok team /\
     ToString host (lookup "position" props) = Ok position /\
     fst (try_block host net p) = Ok tt /\
     display (dom p' resultsContainer) = "block" /\
     hidden (dom p' recommendationsSection) = false /\
     innerHTML (dom p' playerListContainer) = [] /\
     textContent (dom p' playerListHeader) = "Detailed Player Analysis" /\
     textContent (dom p' "conclusion") = fst c /\
     className (dom p' "conclusion")
     = "font-body text-xl font-bold p-2 rounded-md " ++ snd c /\
     textContent (dom p' "player-name-display")
     = name ++ " (" ++ team ++ " - " ++ position ++ ")" /\
     textContent (dom p' "recommendation-score") = toFixed host 2 n ++ " /100" /\
     text host (lookup "input_year" props)
     = Ok (textContent (dom p' "input-year")) /\
     text host (lookup "input_week" props)
     = Ok (textContent (dom p' "input-week")) /\
     text host (lookup "volume" props)
     = Ok (textContent (dom p' "stat-volume")) /\
     text host (lookup "yards" props)
     = Ok (textContent (dom p' "stat-yards")) /\
     text host (lookup "receptions" props)
     = Ok (textContent (dom p' "stat-receptions")) /\
     text host (lookup "td" props) = Ok (textContent (dom p' "stat-td")) /\
     textContent (dom p' errorMessage) = textContent (dom p errorMessage)) /\
  (ToBoolean first = false ->
   fst (try_block host net p) = Ok tt /\
   textContent (dom p' errorMessage) = null_player /\
   hidden (dom p' recommendationsSection) = false /\
   display (dom p' resultsContainer) = display (dom p resultsContainer) /\
   innerHTML (dom p' playerListContainer)
   = innerHTML (dom p playerListContainer)).
Proof.
  intros H net p'. subst net p'. split.
  - intro R.
    destruct (record_fields first R)
      as (props & n & -> & S & _ & N & T & P & _ & IW & IY & V & Y & Rc & D).
    destruct (conclusion_total n) as [c C].
    destruct (ToString_primitive _ N) as [name EN].
    destruct (ToString_primitive _ T) as [team ET].
    destruct (ToString_primitive _ P) as [position EP].
    destruct (text_primitive _ IY) as [input_year EIY].
    destruct (text_primitive _ IW) as [input_week EIW].
    destruct (text_primitive _ V) as [volume EV].
    destruct (text_primitive _ Y) as [yards EY].
    destruct (text_primitive _ Rc) as [receptions ER].
    destruct (text_primitive _ D) as [td ED].
    assert (B : try_block host
                  (Resolved (mkResponse st stx (Parsed (VArr [VObj props])))) p
                = (Ok tt, detail_page c name team position (toFixed host 2 n)
                            input_year input_week volume yards receptions td p)).
    { unfold try_block. rewrite H.
      cbn [negb json bind lift logged Array_isArray elements List.length
           Nat.eqb andb nth ToBoolean].
      apply renderSinglePlayerDetail_written; assumption. }
    exists props, n, c, name, team, position.
    unfold submit_resume, try_catch_finally. rewrite B.
    rewrite EIY, EIW, EV, EY, ER, ED.
    repeat split; assumption.
  - intro F.
    assert (B : try_block host
                  (Resolved (mkResponse st stx (Parsed (VArr [first])))) p
                = (Ok tt, set_hidden recommendationsSection false
                            (set_textContent errorMessage null_player p))).
    { unfold try_block. rewrite H.
      cbn [negb json bind lift logged Array_isArray elements List.length
           Nat.eqb andb nth].
      rewrite F. reflexivity. }
    unfold submit_resume, try_catch_finally. rewrite B. repeat split.
Qed.

(** *** The list view *)

Lemma num_le_trans (x y z : number) : num_le x y -> num_le y z -> num_le x z.
Proof.
  destruct x, y, z; cbn; try tauto. intros; lra.
Qed.

(** The sign of the comparator's result, read as SortCompare reads it. *)
Lemma positive_difference (x y : number) :
  x <> NaN -> y <> NaN ->
  if positive (zero_if_NaN (subtract y x)) then num_le x y else num_le y x.
Proof.
  intros Hx Hy.
  destruct x as [ | | | a], y as [ | | | b]; try congruence; cbn; try tauto;
    try apply Qle_refl.
  destruct (Qle_bool (b - a) 0) eqn:E; cbn.
  - apply Qle_bool_iff in E. lra.
  - assert (~ (b - a <= 0)%Q) by (rewrite <- Qle_bool_iff; congruence). lra.
Qed.

Lemma record_score (v : value) :
  is_player_record v = true ->
  Get host v "reco_score" = Ok (VNum (score_of v)) /\ score_of v <> NaN.
Proof.
  intro R.
  destruct (record_fields v R) as (props & n & -> & S & N & _).
  cbn. rewrite S. split; [reflexivity | assumption].
Qed.

Lemma SortCompare_records (a b : value) :
  is_player_record a = true -> is_player_record b = true ->
  SortCompare host a b = Ok (zero_if_NaN (subtract (score_of b) (score_of a))).
Proof.
  intros Ra Rb.
  destruct (record_score a Ra) as [Ea _], (record_score b Rb) as [Eb _].
  unfold SortCompare, by_score. rewrite Eb, Ea. reflexivity.
Qed.

Lemma insert_records (x : value) (l : list value) :
  is_player_record x = true -> all_records l ->
  exists r : list value,
    insert host x l = Ok r /\ Permutation (x :: l) r /\
    (StronglySorted descending l -> StronglySorted descending r).
Proof.
  intros Rx Rl. induction Rl as [ | y l Ry Rl IH].
  - exists [x]. repeat split; [apply Permutation_refl | ].
    intros _. repeat constructor.
  - destruct IH as (r & E & P & S).
    cbn [insert]. rewrite (SortCompare_records x y Rx Ry). cbn [rbind].
    pose proof (positive_difference (score_of x) (score_of y)
                  (proj2 (record_score x Rx)) (proj2 (record_score y Ry))) as D.
    destruct (positive _).
    + rewrite E. cbn [rbind]. exists (y :: r). repeat split.
      * eapply perm_trans; [apply perm_swap | apply perm_skip, P].
      * intro Syl. apply StronglySorted_inv in Syl as [Sl Fl].
        constructor; [apply S, Sl | ].
        apply (Permutation_Forall P). constructor; assumption.
    + exists (x :: y :: l). repeat split; [apply Permutation_refl | ].
      intro Syl. constructor; [assumption | ].
      apply StronglySorted_inv in Syl as [Sl Fl].
      constructor; [exact D | ].
      eapply Forall_impl; [ | exact Fl].
      intros z Hz. unfold descending in *.
      eapply num_le_trans; eassumption.
Qed.

Lemma insertion_sort_records (l : list value) :
  all_records l ->
  exists r : list value,
    insertion_sort host l = Ok r /\ Permutation l r /\
    StronglySorted descending r.
Proof.
  intro Rl. induction Rl as [ | x l Rx Rl IH].
  - exists []. repeat split; constructor.
  - destruct IH as (s & E & P & S).
    assert (Rs : all_records s) by (apply (Permutation_Forall P), Rl).
    destruct (insert_records x s Rx Rs) as (r & Er & Pr & Sr).
    exists r. cbn [insertion_sort]. rewrite E. cbn [rbind].
    repeat split; [assumption | | apply Sr, S].
    eapply perm_trans; [apply perm_skip, P | exact Pr].
Qed.

Lemma records_defined (l : list value) :
  all_records l ->
  filter (fun v => negb (is_undefined v)) l = l /\ filter is_undefined l = [].
Proof.
  intro Rl. induction Rl as [ | x l Rx Rl [IH1 IH2]]; [split; reflexivity | ].
  destruct x; try discriminate Rx. cbn. rewrite IH1, IH2. split; reflexivity.
Qed.

Lemma sort_records (l : list value) :
  all_records l ->
  exists r : list value,
    sort host l = Ok r /\ Permutation l r /\ StronglySorted descending r.
Proof.
  intro Rl. destruct (insertion_sort_records l Rl) as (r & E & P & S).
  destruct (records_defined l Rl) as [F1 F2].
  exists r. unfold sort. rewrite F1, F2, E. cbn [rbind].
  rewrite app_nil_r. repeat split; assumption.
Qed.

Lemma scoreColor_total (n : number) :
  exists color : string, scoreColor host (VNum n) = Ok color.
Proof.
  unfold scoreColor.
  destruct (ge_total n 75) as [[ | ] E75], (ge_total n 45) as [[ | ] E45];
    rewrite E75; cbn [rbind]; try rewrite E45; cbn [rbind];
    eexists; reflexivity.
Qed.

Lemma field_or_NA_primitive (props : list (string * value)) (f : string) :
  is_primitive (lookup f props) = true ->
  exists s : string, field_or_NA host (VObj props) f = Ok s.
Proof.
  intro H. unfold field_or_NA. cbn [Get rbind].
  apply ToString_primitive. unfold or_else.
  destruct (ToBoolean _); [assumption | reflexivity].
Qed.

Lemma record_rendered (v : value) :
  is_player_record v = true -> exists html : string, rendered_as host v html.
Proof.
  intro R.
  destruct (record_fields v R)
    as (props & n & -> & S & _ & N & T & P & C & _).
  destruct (scoreColor_total n) as [color EC].
  destruct (field_or_NA_primitive props "player_name" N) as [name EN].
  destruct (field_or_NA_primitive props "position" P) as [position EP].
  destruct (field_or_NA_primitive props "team" T) as [team ET].
  destruct (ToString_primitive _ C) as [reco_conclusion ER].
  unfold rendered_as, createPlayerCardHTML.
  change (Get host (VObj props) "reco_score")
    with (Ok (lookup "reco_score" props)).
  change (Get host (VObj props) "reco_conclusion")
    with (Ok (lookup "reco_conclusion" props)).
  cbn [rbind]. rewrite S, EC, EN, EP, ET, ER. cbn [rbind].
  unfold scoreText. destruct (ToBoolean (VNum n)); eexists; reflexivity.
Qed.

Lemma forEach_card_cons (x : value) (l : list value) (html : string)
  (p : page) :
  rendered_as host x html ->
  forEach_card host (x :: l) p
  = forEach_card host l (insertAdjacentHTML_beforeend playerListContainer html p).
Proof.
  intro E. cbn [forEach_card]. unfold bind, lift, write.
  unfold rendered_as in E. rewrite E. reflexivity.
Qed.

Lemma forEach_card_records (l : list value) :
  all_records l ->
  exists cards : list string,
    Forall2 (rendered_as host) l cards /\
    forall p : page,
      fst (forEach_card host l p) = Ok tt /\
      innerHTML (dom (snd (forEach_card host l p)) playerListContainer)
      = (innerHTML (dom p playerListContainer) ++ cards)%list /\
      forall id : string,
        String.eqb id playerListContainer = false ->
        dom (snd (forEach_card host l p)) id = dom p id.
Proof.
  intro Rl. induction Rl as [ | x l Rx Rl (cards & F & IH)].
  - exists []. split; [constructor | ]. intro p. cbn.
    rewrite app_nil_r. repeat split.
  - destruct (record_rendered x Rx) as [html E].
    exists (html :: cards). split; [constructor; assumption | ].
    intro p. rewrite (forEach_card_cons x l html p E).
    destruct (IH (insertAdjacentHTML_beforeend playerListContainer html p))
      as (I1 & I2 & I3).
    repeat split.
    + exact I1.
    + rewrite I2. cbn. rewrite <- app_assoc. reflexivity.
    + intros id Hid. rewrite (I3 id Hid). cbn. rewrite Hid. reflexivity.
Qed.

Lemma renderPlayerList_records (data : list value) :
  all_records data -> data <> [] ->
  exists (sorted : list value) (cards : list string),
    sort host data = Ok sorted /\
    Permutation data sorted /\
    StronglySorted descending sorted /\
    Forall2 (rendered_as host) sorted cards /\
    forall p : page,
      fst (renderPlayerList host data p) = Ok tt /\
      innerHTML (dom (snd (renderPlayerList host data p)) playerListContainer)
      = cards /\
      display (dom (snd (renderPlayerList host data p)) resultsContainer)
      = "none" /\
      hidden (dom (snd (renderPlayerList host data p)) recommendationsSection)
      = false /\
      textContent (dom (snd (renderPlayerList host data p)) errorMessage)
      = textContent (dom p errorMessage).
Proof.
  intros Rl Hne.
  destruct (sort_records data Rl) as (sorted & ES & P & S).
  assert (Rs : all_records sorted) by (apply (Permutation_Forall P), Rl).
  destruct (forEach_card_records sorted Rs) as (cards & F & C).
  exists sorted, cards. repeat split; try assumption.
  all: destruct data as [ | first rest]; [congruence | ].
  all: apply Forall_inv in Rl.
  all: destruct (record_fields first Rl)
         as (props & n & -> & _ & _ & _ & T & _ & _ & IW & _).
  all: destruct (ToString_primitive _ T) as [team ET].
  all: assert (W : exists week : string,
                  ToString host
                    (if ToBoolean (lookup "input_week" props)
                     then lookup "input_week" props else VStr "N/A") = Ok week)
         by (apply ToString_primitive;
             destruct (ToBoolean _); [assumption | reflexivity]).
  all: destruct W as [week EW].
  all: assert (Hs : sorted <> [])
         by (intro X; subst sorted; apply Permutation_sym in P;
             apply Permutation_nil in P; discriminate P).
  all: destruct sorted as [ | s0 sorted']; [congruence | ].
  all: unfold renderPlayerList; cbn [bind lift write Get rbind].
  all: destruct (ToBoolean (lookup "input_week" props));
         rewrite ET; cbn [bind lift write Get rbind];
         rewrite EW; cbn [bind lift write Get rbind];
         rewrite ES; cbn [bind lift write Get rbind List.length Nat.ltb Nat.leb].
  all: unfold bind at 1.
  all: match goal with
       | |- context [forEach_card host ?l ?q] =>
           destruct (C q) as (C1 & C2 & C3);
           destruct (forEach_card host l q) as [[[] | e] q'];
           cbn [fst snd] in C1, C2, C3; try discriminate C1
       end.
  all: cbn.
  all: try reflexivity.
  all: try (rewrite C2; reflexivity).
  all: rewrite (C3 errorMessage eq_refl); reflexivity.
Qed.

(** C3.  After a successful response whose body is an array of more than
    one record of the data model, the cards in the list container are those
    of the records, put in descending order of reco_score: the array the
    cards are made from is a permutation of the response that descends by
    score.  The list is shown and the detail panel hidden.  In particular,
    records with the scores 10, 90, 50 are rendered in the order 90, 50,
    10. *)
Theorem list_in_descending_order (st : Z) (stx : string) (data : list value)
  (p : page) :
  ok (mkResponse st stx (Parsed (VArr data))) = true ->
  (1 < List.length data)%nat ->
  all_records data ->
  let net := Resolved (mkResponse st stx (Parsed (VArr data))) in
  let p' := snd (submit_resume host net p) in
  exists (sorted : list value) (cards : list string),
    sort host data = Ok sorted /\
    Permutation data sorted /\
    StronglySorted descending sorted /\
    Forall2 (rendered_as host) sorted cards /\
    fst (try_block host net p) = Ok tt /\
    innerHTML (dom p' playerListContainer) = cards /\
    display (dom p' resultsContainer) = "none" /\
    hidden (dom p' recommendationsSection) = false /\
    (forall a b c : value,
        data = [a; b; c] ->
        score_of a = Fin 10 -> score_of b = Fin 90 -> score_of c = Fin 50 ->
        sorted = [b; c; a]).
Proof.
  intros H L Rl net p'. subst net p'.
  assert (Hne : data <> []) by (intro X; subst data; cbn in L; lia).
  destruct (renderPlayerList_records data Rl Hne)
    as (sorted & cards & ES & P & S & F & R).
  exists sorted, cards.
  assert (B : try_block host
                (Resolved (mkResponse st stx (Parsed (VArr data)))) p
              = renderPlayerList host data p).
  { unfold try_block. rewrite H.
    cbn [negb json bind lift logged Array_isArray elements andb].
    destruct data as [ | a [ | b rest]]; cbn in L; try lia. reflexivity. }
  destruct (R p) as (R1 & R2 & R3 & R4 & _).
  unfold submit_resume, try_catch_finally. rewrite B.
  destruct (renderPlayerList host data p) as [[[] | e] p1];
    cbn [fst snd] in R1, R2, R3, R4; try discriminate R1.
  repeat split; try assumption.
  intros a b c -> Sa Sb Sc.
  inversion Rl as [ | ? ? Ra Rl1]; subst.
  inversion Rl1 as [ | ? ? Rb Rl2]; subst.
  inversion Rl2 as [ | ? ? Rc _]; subst.
  destruct (records_defined [a; b; c] Rl) as [F1 F2].
  unfold sort in ES. rewrite F1, F2 in ES. cbn [insertion_sort insert rbind] in ES.
  rewrite (SortCompare_records b c Rb Rc), Sb, Sc in ES.
  cbn [rbind] in ES.
  change (positive (zero_if_NaN (subtract (Fin 50) (Fin 90)))) with false in ES.
  cbn [insert rbind] in ES.
  rewrite (SortCompare_records a b Ra Rb), Sa, Sb in ES.
  cbn [rbind] in ES.
  change (positive (zero_if_NaN (subtract (Fin 90) (Fin 10)))) with true in ES.
  cbn [insert rbind] in ES.
  rewrite (SortCompare_records a c Ra Rc), Sa, Sc in ES.
  cbn [rbind] in ES.
  change (positive (zero_if_NaN (subtract (Fin 50) (Fin 10)))) with true in ES.
  cbn [insert rbind app] in ES.
  injection ES as <-. reflexivity.
Qed.

(** ** Beyond the claims *)

(** *** Frames *)

Lemma preserves_ret {A B : Type} (f : page -> B) (a : A) : preserves f (ret a).
Proof. intro p. reflexivity. Qed.

Lemma preserves_lift {A B : Type} (f : page -> B) (r : result A) :
  preserves f (lift r).
Proof. intro p. reflexivity. Qed.

Lemma preserves_throw {A B : Type} (f : page -> B) (e : exn) :
  preserves f (@throw A e).
Proof. intro p. reflexivity. Qed.

Lemma preserves_bind {A A' B : Type} (f : page -> B) (m : M A) (k : A -> M A') :
  preserves f m -> (forall a : A, preserves f (k a)) -> preserves f (bind m k).
Proof.
  intros Hm Hk p. unfold bind. specialize (Hm p).
  destruct (m p) as [[a | e] p1]; cbn [snd] in *.
  - rewrite (Hk a p1). exact Hm.
  - exact Hm.
Qed.

Lemma kept_of_preserves {A B : Type} (f : page -> B) (m : M A) :
  preserves f m -> kept_on_throw f m.
Proof. intros H p p1 e E. specialize (H p). rewrite E in H. exact H. Qed.

Lemma kept_bind {A A' B : Type} (f : page -> B) (m : M A) (k : A -> M A') :
  preserves f m -> (forall a : A, kept_on_throw f (k a)) ->
  kept_on_throw f (bind m k).
Proof.
  intros Hm Hk p p1 e. unfold bind. specialize (Hm p).
  destruct (m p) as [[a | e'] p'] eqn:E; cbn [snd] in Hm; intro H.
  - rewrite <- Hm. exact (Hk a p' p1 e H).
  - injection H as _ <-. exact Hm.
Qed.

Lemma returned_bind {A A' : Type} (m : M A) (k : A -> M A') (p p1 : page)
  (b : A') :
  bind m k p = (Ok b, p1) ->
  exists (a : A) (p' : page), m p = (Ok a, p') /\ k a p' = (Ok b, p1).
Proof.
  unfold bind. destruct (m p) as [[a | e] p']; intro H; [ | discriminate H].
  exists a, p'. split; [reflexivity | exact H].
Qed.

Ltac eqb_cases :=
  repeat match goal with
         | |- context [String.eqb ?a ?b] => destruct (String.eqb a b)
         end.

Ltac frame :=
  repeat first
    [ apply preserves_bind; [ | intro ]
    | apply preserves_lift
    | apply preserves_ret
    | apply preserves_throw
    | match goal with
      | |- preserves _ (write _) =>
          let p := fresh "p" in intro p; cbn; eqb_cases; reflexivity
      | |- preserves _ (if ?c then _ else _) => destruct c
      end ].

Lemma forEach_card_preserves {B : Type} (f : page -> B) (l : list value) :
  (forall html : string,
      preserves f (write (insertAdjacentHTML_beforeend playerListContainer html))) ->
  preserves f (forEach_card host l).
Proof.
  intro H. induction l as [ | x l IH]; cbn [forEach_card].
  - apply preserves_ret.
  - apply preserves_bind; [apply preserves_lift | intro html].
    apply preserves_bind; [apply H | intros _; exact IH].
Qed.

Lemma try_block_keeps_typed (id : string) (net : fetch_outcome) :
  preserves (typed id) (try_block host net).
Proof.
  unfold try_block, renderSinglePlayerDetail, renderPlayerList, typed.
  destruct net as [r | e]; [ | apply preserves_throw].
  frame.
  all: try (apply forEach_card_preserves; intro; frame).
Qed.

Lemma try_block_keeps_logs (net : fetch_outcome) :
  preserves logs (try_block host net).
Proof.
  unfold try_block, renderSinglePlayerDetail, renderPlayerList, logs.
  destruct net as [r | e]; [ | apply preserves_throw].
  frame.
  all: try (apply forEach_card_preserves; intro; frame).
Qed.

Lemma try_catch_finally_preserves {B : Type} (f : page -> B) (body : M unit) :
  preserves f body ->
  (forall e : exn, preserves f (catch e)) ->
  preserves f finally ->
  preserves f (try_catch_finally body catch finally).
Proof.
  intros Hb Hc Hf p. unfold try_catch_finally.
  specialize (Hb p). destruct (body p) as [[[] | e] p1]; cbn [snd] in Hb.
  - specialize (Hf p1). destruct (finally p1) as [[[] | e] p3];
      cbn [snd] in *; congruence.
  - specialize (Hc e p1). destruct (catch e p1) as [r' p2]; cbn [snd] in Hc.
    specialize (Hf p2). destruct (finally p2) as [[[] | e'] p3];
      cbn [snd] in *; congruence.
Qed.

(** X1.  With the three inputs filled in, a submission sends exactly one
    request -- a POST to /analyze_player with the JSON content type, whose
    body holds the trimmed player or team, year and week as strings -- and
    shows no alert, whatever the network answers: nothing after the await
    sends a request or alerts. *)
Theorem one_request_per_submission (net : fetch_outcome) (p : page) :
  ~ inputs_missing p ->
  requests (snd (submit host net p))
  = (requests p
     ++ [mkRequest "/analyze_player" "POST" "application/json"
           (mkUserInputs (trim (value_ (dom p playerInput)))
                         (trim (value_ (dom p yearInput)))
                         (trim (value_ (dom p weekInput))))])%list /\
  alerts (snd (submit host net p)) = alerts p.
Proof.
  intro H.
  assert (C : negb (ToBoolean (VStr (trim (value_ (dom p playerInput)))))
              || negb (ToBoolean (VStr (trim (value_ (dom p weekInput)))))
              || negb (ToBoolean (VStr (trim (value_ (dom p yearInput)))))
              = false).
  { unfold inputs_missing in H.
    apply not_true_is_false. rewrite !orb_true_iff, !not_ToBoolean_VStr.
    tauto. }
  assert (L : preserves logs (submit_resume host net)).
  { apply try_catch_finally_preserves.
    - apply try_block_keeps_logs.
    - intro e. unfold catch, logs. frame.
    - unfold finally, logs. frame. }
  unfold submit, bind at 1.
  unfold submit_begin, bind, write, get, getElementById; cbn.
  cbn in C. rewrite C; cbn.
  match goal with
  | |- context [submit_resume host net ?q] =>
      specialize (L q); unfold logs in L; cbn in L;
      injection L as La Lr; rewrite La, Lr
  end.
  split; reflexivity.
Qed.

(** X2.  While the request is in flight -- after the first half of the
    handler, with the three inputs filled in -- the submit button is
    disabled, its label reads "Analyzing...", the spinner is shown, the
    results section and the detail panel are hidden and the error text of
    the previous submission is gone. *)
Theorem loading_state (p : page) :
  ~ inputs_missing p ->
  let p' := snd (submit_begin p) in
  disabled (dom p' submitButton) = true /\
  textContent (dom p' buttonText) = "Analyzing..." /\
  hidden (dom p' spinner) = false /\
  hidden (dom p' recommendationsSection) = true /\
  display (dom p' resultsContainer) = "none" /\
  textContent (dom p' errorMessage) = EmptyString /\
  innerHTML (dom p' playerListContainer) = innerHTML (dom p playerListContainer).
Proof.
  intro H.
  assert (C : negb (ToBoolean (VStr (trim (value_ (dom p playerInput)))))
              || negb (ToBoolean (VStr (trim (value_ (dom p weekInput)))))
              || negb (ToBoolean (VStr (trim (value_ (dom p yearInput)))))
              = false).
  { unfold inputs_missing in H.
    apply not_true_is_false. rewrite !orb_true_iff, !not_ToBoolean_VStr.
    tauto. }
  unfold submit_begin, bind, write, get, getElementById; cbn.
  cbn in C. rewrite C; cbn. repeat split.
Qed.

(** X3.  No submission, whatever its outcome, changes the value of any
    element: the three inputs still hold what the user typed. *)
Theorem inputs_left_as_typed (net : fetch_outcome) (p : page) (id : string) :
  value_ (dom (snd (submit host net p)) id) = value_ (dom p id).
Proof.
  change (typed id (snd (submit host net p)) = typed id p).
  revert p. change (preserves (typed id) (submit host net)).
  unfold submit. apply preserves_bind.
  - unfold submit_begin, typed. frame.
    all: intro p; cbn; eqb_cases; reflexivity.
  - intros [r | ]; [ | apply preserves_ret].
    apply try_catch_finally_preserves.
    + apply try_block_keeps_typed.
    + intro e. unfold catch, typed. frame.
    + unfold finally, typed. frame.
Qed.

(** *** When the detail panel is shown *)

Ltac frame_all :=
  frame; try (apply forEach_card_preserves; intro; frame).

Lemma renderSinglePlayerDetail_kept (data : value) :
  kept_on_throw detail_display (renderSinglePlayerDetail host data).
Proof.
  unfold renderSinglePlayerDetail, detail_display.
  repeat (apply kept_bind; [solve [frame] | intro]).
  intros p p1 e H. discriminate H.
Qed.

Lemma renderPlayerList_kept (l : list value) :
  kept_on_throw detail_display (renderPlayerList host l).
Proof.
  unfold renderPlayerList, detail_display.
  repeat (apply kept_bind; [solve [frame_all] | intro]).
  intros p p1 e H. discriminate H.
Qed.

Lemma renderPlayerList_returned (l : list value) (p p1 : page) :
  renderPlayerList host l p = (Ok tt, p1) -> detail_display p1 = "none".
Proof.
  unfold renderPlayerList. intro H.
  repeat match type of H with
         | bind (write (set_display _ _)) _ _ = _ => fail 1
         | bind _ _ _ = _ =>
             apply returned_bind in H; destruct H as (? & ? & _ & H)
         end.
  unfold bind, write in H. injection H as <-. reflexivity.
Qed.

Lemma try_block_kept (net : fetch_outcome) :
  kept_on_throw detail_display (try_block host net).
Proof.
  destruct net as [r | e]; [ | intros p p1 e' H; injection H as _ <-; reflexivity].
  unfold try_block.
  destruct (negb (ok r)).
  - apply kept_of_preserves. unfold detail_display. frame.
  - apply kept_bind; [unfold detail_display; frame | intro data].
    apply kept_bind; [unfold detail_display; frame | intros _].
    destruct (Array_isArray data && _).
    + cbv zeta. destruct (ToBoolean _).
      * apply renderSinglePlayerDetail_kept.
      * apply kept_of_preserves. unfold detail_display. frame.
    + destruct (Array_isArray data && _); [apply renderPlayerList_kept | ].
      apply kept_of_preserves. unfold detail_display. frame.
Qed.

(** After the await the handler turns the detail panel on only by
    rendering a record to the end. *)
Lemma resume_shows_detail (net : fetch_outcome) (q : page) :
  detail_display q <> "block" ->
  detail_display (snd (submit_resume host net q)) = "block" ->
  exists (st : Z) (stx : string) (first : value),
    net = Resolved (mkResponse st stx (Parsed (VArr [first]))) /\
    ok (mkResponse st stx (Parsed (VArr [first]))) = true /\
    ToBoolean first = true /\
    fst (renderSinglePlayerDetail host first q) = Ok tt.
Proof.
  intros Hq. unfold submit_resume, try_catch_finally.
  destruct (try_block host net q) as [[[] | e] p1] eqn:E.
  - intro D. change (detail_display p1 = "block") in D.
    destruct net as [[st stx body] | e]; [ | discriminate E].
    unfold try_block in E.
    destruct (ok (mkResponse st stx body)) eqn:O; cbn [negb] in E.
    2:{ apply returned_bind in E. destruct E as (? & ? & _ & E).
        apply returned_bind in E. destruct E as (? & ? & _ & E).
        discriminate E. }
    destruct body as [v | e]; [ | discriminate E]. cbn [json] in E.
    apply returned_bind in E. destruct E as (data & q1 & E1 & E).
    injection E1 as <- <-.
    apply returned_bind in E. destruct E as ([] & q2 & E2 & E).
    assert (q2 = q) by (unfold lift, logged in E2; destruct v; congruence).
    subst q2.
    destruct v as [ | | | | | l | ]; cbn [Array_isArray andb elements] in E;
      try (injection E as <-; contradiction).
    destruct l as [ | first [ | second rest]];
      cbn [List.length Nat.eqb Nat.ltb Nat.leb andb nth] in E.
    + injection E as <-. contradiction.
    + destruct (ToBoolean first) eqn:T.
      * exists st, stx, first. rewrite E. repeat split; assumption.
      * injection E as <-. contradiction.
    + apply renderPlayerList_returned in E. congruence.
  - intro D. change (detail_display p1 = "block") in D.
    rewrite (try_block_kept net q p1 e E) in D. contradiction.
Qed.

Lemma display_after_begin (net : fetch_outcome) (p : page) :
  ~ inputs_missing p ->
  submit host net p = submit_resume host net (snd (submit_begin p)) /\
  detail_display (snd (submit_begin p)) = "none".
Proof.
  intro H.
  assert (C : negb (ToBoolean (VStr (trim (value_ (dom p playerInput)))))
              || negb (ToBoolean (VStr (trim (value_ (dom p weekInput)))))
              || negb (ToBoolean (VStr (trim (value_ (dom p yearInput)))))
              = false).
  { unfold inputs_missing in H.
    apply not_true_is_false. rewrite !orb_true_iff, !not_ToBoolean_VStr.
    tauto. }
  unfold submit, bind at 1.
  unfold submit_begin, bind, write, get, getElementById; cbn.
  cbn in C. rewrite C; cbn. split; reflexivity.
Qed.

(** X4.  At the end of a submission the detail panel is displayed only if
    the response was a success whose body is an array of one truthy
    element and renderSinglePlayerDetail ran on that element to its end.
    An error of any kind, a list, an empty array and a rendering that
    throws half-way all leave the panel hidden. *)
Theorem detail_shown_only_after_render (net : fetch_outcome) (p : page) :
  ~ inputs_missing p ->
  display (dom (snd (submit host net p)) resultsContainer) = "block" ->
  exists (st : Z) (stx : string) (first : value),
    net = Resolved (mkResponse st stx (Parsed (VArr [first]))) /\
    ok (mkResponse st stx (Parsed (VArr [first]))) = true /\
    ToBoolean first = true /\
    fst (renderSinglePlayerDetail host first (snd (submit_begin p))) = Ok tt.
Proof.
  intros H D.
  destruct (display_after_begin net p H) as [S N].
  rewrite S in D. apply resume_shows_detail; [ | exact D].
  rewrite N. discriminate.
Qed.

(** *** Responses that are not what the views expect *)

Lemma try_block_single (st : Z) (stx : string) (first : value) (p : page) :
  ok (mkResponse st stx (Parsed (VArr [first]))) = true ->
  ToBoolean first = true ->
  try_block host (Resolved (mkResponse st stx (Parsed (VArr [first])))) p
  = renderSinglePlayerDetail host first p.
Proof.
  intros H T. unfold try_block. rewrite H.
  cbn [negb json bind lift logged Array_isArray elements List.length
       Nat.eqb andb nth].
  rewrite T. reflexivity.
Qed.

Lemma try_block_list (st : Z) (stx : string) (data : list value) (p : page) :
  ok (mkResponse st stx (Parsed (VArr data))) = true ->
  (1 < List.length data)%nat ->
  try_block host (Resolved (mkResponse st stx (Parsed (VArr data)))) p
  = renderPlayerList host data p.
Proof.
  intros H L. unfold try_block. rewrite H.
  cbn [negb json bind lift logged Array_isArray elements andb].
  destruct data as [ | a [ | b rest]]; cbn in L; try lia. reflexivity.
Qed.

(** X5.  A single record whose reco_score is missing or null is rendered
    only in part: the list is emptied, the header, the conclusion (the
    "sit / risky" one) and the name line are written, then [toFixed]
    throws; the detail panel is not turned on, the score field keeps its
    old text and the message of the TypeError is shown. *)
Theorem record_without_score (st : Z) (stx : string)
  (props : list (string * value)) (name team position : string) (p : page) :
  ok (mkResponse st stx (Parsed (VArr [VObj props]))) = true ->
  lookup "reco_score" props = VUndefined \/ lookup "reco_score" props = VNull ->
  ToString host (lookup "player_name" props) = Ok name ->
  ToString host (lookup "team" props) = Ok team ->
  ToString host (lookup "position" props) = Ok position ->
  let p' := snd (submit_resume host
                   (Resolved (mkResponse st stx (Parsed (VArr [VObj props]))))
                   p) in
  textContent (dom p' errorMessage)
  = fault_message host (ReadOfNullish (lookup "reco_score" props) "toFixed") /\
  hidden (dom p' recommendationsSection) = false /\
  display (dom p' resultsContainer) = display (dom p resultsContainer) /\
  innerHTML (dom p' playerListContainer) = [] /\
  textContent (dom p' playerListHeader) = "Detailed Player Analysis" /\
  textContent (dom p' "conclusion") = fst risky /\
  textContent (dom p' "player-name-display")
  = name ++ " (" ++ team ++ " - " ++ position ++ ")" /\
  textContent (dom p' "recommendation-score")
  = textContent (dom p "recommendation-score").
Proof.
  intros H S N T P p'. subst p'.
  unfold submit_resume, try_catch_finally.
  rewrite (try_block_single st stx (VObj props) p H eq_refl).
  unfold renderSinglePlayerDetail. cbn [bind lift write rbind Get].
  destruct S as [S | S]; rewrite S; cbn [bind lift write rbind conclusion];
    (change (conclusion host VUndefined) with (Ok (A := string * string) risky)
     || change (conclusion host VNull) with (Ok (A := string * string) risky));
    cbn [bind lift write rbind];
    step N; step T; step P; repeat split.
Qed.

(** X6.  A list whose first element is null is not rendered: reading its
    team throws as soon as the list container has been emptied, so the
    container is left empty, the header and the detail panel are left as
    they were, and the message of the TypeError is shown. *)
Theorem list_with_null_first (st : Z) (stx : string) (rest : list value)
  (p : page) :
  ok (mkResponse st stx (Parsed (VArr (VNull :: rest)))) = true ->
  rest <> [] ->
  let p' := snd (submit_resume host
                   (Resolved (mkResponse st stx (Parsed (VArr (VNull :: rest)))))
                   p) in
  textContent (dom p' errorMessage)
  = fault_message host (ReadOfNullish VNull "team") /\
  hidden (dom p' recommendationsSection) = false /\
  innerHTML (dom p' playerListContainer) = [] /\
  textContent (dom p' playerListHeader) = textContent (dom p playerListHeader) /\
  display (dom p' resultsContainer) = display (dom p resultsContainer).
Proof.
  intros H R p'. subst p'.
  unfold submit_resume, try_catch_finally.
  rewrite (try_block_list st stx (VNull :: rest) p H)
    by (destruct rest; [congruence | cbn; lia]).
  unfold renderPlayerList. cbn [bind lift write rbind Get].
  repeat split.
Qed.

Lemma header_kept_after (l : list value) :
  preserves (fun p => textContent (dom p playerListHeader)) (after_header host l).
Proof. unfold after_header. frame_all. Qed.

(** X7.  The header of the list view names the team and the week of the
    first element of the response as it arrived, before the sort, with
    "N/A" for a week that is missing or falsy; it is written even when the
    sort or a card throws afterwards. *)
Theorem list_header (st : Z) (stx : string) (props : list (string * value))
  (rest : list value) (team week : string) (p : page) :
  ok (mkResponse st stx (Parsed (VArr (VObj props :: rest)))) = true ->
  rest <> [] ->
  ToString host (lookup "team" props) = Ok team ->
  ToString host (if ToBoolean (lookup "input_week" props)
                 then lookup "input_week" props else VStr "N/A") = Ok week ->
  textContent
    (dom (snd (submit_resume host
                 (Resolved (mkResponse st stx
                              (Parsed (VArr (VObj props :: rest))))) p))
         playerListHeader)
  = "Top Fantasy Options for the " ++ team ++ " (Week " ++ week ++ ")".
Proof.
  intros H R ET EW.
  assert (B : textContent
                (dom (snd (renderPlayerList host (VObj props :: rest) p))
                     playerListHeader)
              = "Top Fantasy Options for the " ++ team ++ " (Week " ++ week ++ ")").
  { assert (E : renderPlayerList host (VObj props :: rest) p
                = after_header host (VObj props :: rest)
                    (set_textContent playerListHeader
                       ("Top Fantasy Options for the " ++ team
                        ++ " (Week " ++ week ++ ")")
                       (set_innerHTML playerListContainer [] p))).
    { unfold renderPlayerList. cbn [bind lift write rbind Get].
      destruct (ToBoolean (lookup "input_week" props));
        cbn [bind lift write rbind]; step ET; step EW; reflexivity. }
    rewrite E, header_kept_after. reflexivity. }
  unfold submit_resume, try_catch_finally.
  rewrite (try_block_list st stx (VObj props :: rest) p H)
    by (destruct rest; [congruence | cbn; lia]).
  destruct (renderPlayerList host (VObj props :: rest) p) as [[[] | e] p1];
    cbn [snd] in B; cbn; exact B.
Qed.

(** *** Ties *)

Lemma positive_apart (x y n : number) :
  x <> NaN -> y <> NaN ->
  positive (zero_if_NaN (subtract y x)) = true ->
  num_eqb x n = true -> num_eqb y n = false.
Proof.
  intros Hx Hy.
  destruct x as [ | | | a], y as [ | | | b], n as [ | | | c];
    try congruence; cbn; try congruence.
  intros P E. apply Qeq_bool_iff in E.
  destruct (Qeq_bool b c) eqn:F; [ | reflexivity].
  apply Qeq_bool_iff in F.
  assert (L : Qle_bool (b - a) 0 = true) by (apply Qle_bool_iff; lra).
  rewrite L in P. discriminate P.
Qed.

Lemma insert_stable (n : number) (x : value) (l : list value) :
  is_player_record x = true -> all_records l ->
  forall r : list value,
    insert host x l = Ok r -> filter (scored n) r = filter (scored n) (x :: l).
Proof.
  intros Rx Rl. induction Rl as [ | y l Ry Rl IH]; intros r E.
  - injection E as <-. reflexivity.
  - cbn [insert] in E. rewrite (SortCompare_records x y Rx Ry) in E.
    cbn [rbind] in E.
    destruct (positive _) eqn:P.
    + destruct (insert host x l) as [r' | e]; [ | discriminate E].
      injection E as <-. cbn [filter]. rewrite (IH r' eq_refl). cbn [filter].
      destruct (scored n x) eqn:Sx; [ | reflexivity].
      unfold scored in *.
      rewrite (positive_apart _ _ n (proj2 (record_score x Rx))
                 (proj2 (record_score y Ry)) P Sx).
      reflexivity.
    + injection E as <-. reflexivity.
Qed.

Lemma insertion_sort_stable (n : number) (l : list value) :
  all_records l ->
  forall r : list value,
    insertion_sort host l = Ok r -> filter (scored n) r = filter (scored n) l.
Proof.
  intro Rl. induction Rl as [ | x l Rx Rl IH]; intros r E.
  - injection E as <-. reflexivity.
  - cbn [insertion_sort] in E.
    destruct (insertion_sort_records l Rl) as (s & Es & Ps & _).
    rewrite Es in E. cbn [rbind] in E.
    assert (Rs : all_records s) by (apply (Permutation_Forall Ps), Rl).
    rewrite (insert_stable n x s Rx Rs r E). cbn [filter].
    rewrite (IH s Es). reflexivity.
Qed.

(** X8.  Sorting the records of a response keeps ties in the order of the
    response: for every score, the records that have it come out of the
    sort in the order in which they went in.  (The comparator returns 0 on
    a tie, and the sort is the stable one the standard asks for.) *)
Theorem ties_keep_response_order (data : list value) :
  all_records data ->
  exists sorted : list value,
    sort host data = Ok sorted /\
    forall n : number, filter (scored n) sorted = filter (scored n) data.
Proof.
  intro Rl.
  destruct (insertion_sort_records data Rl) as (r & E & _).
  destruct (records_defined data Rl) as [F1 F2].
  exists r. unfold sort. rewrite F1, F2, E. cbn [rbind]. rewrite app_nil_r.
  split; [reflexivity | ].
  intro n. apply insertion_sort_stable; assumption.
Qed.

(** *** The two views on one score *)

(** X9.  Whatever value the score is -- a number, a string, null, missing,
    an object -- the conclusion of the detail view and the colour on the
    card fall in the same tier, and one throws exactly when the other
    does, with the same error. *)
Theorem views_agree_on_tier (score : value) :
  (conclusion host score = Ok must_start /\
   scoreColor host score = Ok "text-green-500") \/
  (conclusion host score = Ok flex /\
   scoreColor host score = Ok "text-yellow-400") \/
  (conclusion host score = Ok risky /\
   scoreColor host score = Ok "text-red-500") \/
  (exists e : exn,
      conclusion host score = Throw e /\ scoreColor host score = Throw e).
Proof.
  unfold conclusion, scoreColor, ge.
  destruct (ToNumber host score) as [n | e]; cbn [rbind].
  - destruct (lessThan n (Fin 75)) as [[ | ] | ];
      destruct (lessThan n (Fin 45)) as [[ | ] | ]; tauto.
  - right; right; right. exists e. split; reflexivity.
Qed.

(** *** The fields of a card *)

Lemma field_or_NA_cases (props : list (string * value)) (f : string) :
  field_or_NA host (VObj props) f
  = if ToBoolean (lookup f props) then ToString host (lookup f props)
    else Ok "N/A".
Proof.
  unfold field_or_NA, or_else. cbn [Get rbind].
  destruct (ToBoolean (lookup f props)); reflexivity.
Qed.

(** X10.  On the card of a record, a name, position or team that is
    missing or falsy reads "N/A", and one that is truthy reads as itself;
    the conclusion has no such fallback, so a record without
    reco_conclusion carries the text "undefined".  The card of a record of
    the data model is always made. *)
Theorem card_fields (v : value) :
  is_player_record v = true ->
  exists (props : list (string * value))
         (name position team color score reco_conclusion : string),
    v = VObj props /\
    createPlayerCardHTML host v
    = Ok (card name position team color score reco_conclusion) /\
    (if ToBoolean (lookup "player_name" props)
     then ToString host (lookup "player_name" props) = Ok name
     else name = "N/A") /\
    (if ToBoolean (lookup "position" props)
     then ToString host (lookup "position" props) = Ok position
     else position = "N/A") /\
    (if ToBoolean (lookup "team" props)
     then ToString host (lookup "team" props) = Ok team
     else team = "N/A") /\
    (lookup "reco_conclusion" props = VUndefined ->
     reco_conclusion = "undefined").
Proof.
  intro R.
  destruct (record_fields v R)
    as (props & n & -> & S & _ & N & T & P & C & _).
  destruct (scoreColor_total n) as [color EC].
  destruct (field_or_NA_primitive props "player_name" N) as [name EN].
  destruct (field_or_NA_primitive props "position" P) as [position EP].
  destruct (field_or_NA_primitive props "team" T) as [team ET].
  destruct (ToString_primitive _ C) as [reco_conclusion ER].
  assert (X : exists score : string,
             scoreText host (VNum n) = Ok score).
  { unfold scoreText. destruct (ToBoolean (VNum n)); eexists; reflexivity. }
  destruct X as [score ES].
  exists props, name, position, team, color, score, reco_conclusion.
  split; [reflexivity | ]. split.
  - unfold createPlayerCardHTML.
    change (Get host (VObj props) "reco_score")
      with (Ok (lookup "reco_score" props)).
    change (Get host (VObj props) "reco_conclusion")
      with (Ok (lookup "reco_conclusion" props)).
    cbn [rbind]. rewrite S, EC, EN, EP, ET, ES, ER. reflexivity.
  - rewrite field_or_NA_cases in EN, EP, ET.
    repeat split.
    + destruct (ToBoolean (lookup "player_name" props)); congruence.
    + destruct (ToBoolean (lookup "position" props)); congruence.
    + destruct (ToBoolean (lookup "team" props)); congruence.
    + intro U. rewrite U in ER. cbn in ER. congruence.
Qed.

(** *** Blank fields *)

Lemma substring_all (s : string) : substring 0 (String.length s) s = s.
Proof. induction s as [ | c s IH]; cbn; [reflexivity | rewrite IH; reflexivity]. Qed.

Lemma find_space (s : string) :
  find (fun w => prefix w (String " " s)) white_space = Some (bytes [32]).
Proof. cbn. destruct s; reflexivity. Qed.

Lemma strip_spaces (n fuel : nat) :
  (n <= fuel)%nat -> strip fuel white_space (spaces n) = EmptyString.
Proof.
  revert fuel. induction n as [ | n IH]; intros fuel L.
  - destruct fuel; reflexivity.
  - destruct fuel as [ | fuel]; [lia | ].
    cbn [spaces strip].
    rewrite find_space.
    change (String.length (bytes [32])) with 1%nat.
    cbn [String.length Nat.sub substring].
    rewrite Nat.sub_0_r, substring_all. apply IH. lia.
Qed.

Lemma length_spaces (n : nat) : String.length (spaces n) = n.
Proof. induction n as [ | n IH]; cbn; [reflexivity | rewrite IH; reflexivity]. Qed.

Lemma trim_spaces (n : nat) : trim (spaces n) = EmptyString.
Proof.
  unfold trim, trimStart. rewrite strip_spaces by (rewrite length_spaces; lia).
  reflexivity.
Qed.

(** X11.  A field that holds only blanks counts as empty: if the player,
    week or year input is a run of spaces, the submission sends no request
    and alerts the user. *)
Theorem blank_field_sends_nothing (net : fetch_outcome) (p : page) (n : nat) :
  value_ (dom p playerInput) = spaces n \/
  value_ (dom p weekInput) = spaces n \/
  value_ (dom p yearInput) = spaces n ->
  requests (snd (submit host net p)) = requests p /\
  alerts (snd (submit host net p)) = (alerts p ++ [fields_missing])%list.
Proof.
  intro H.
  assert (I : inputs_missing p).
  { unfold inputs_missing.
    destruct H as [H | [H | H]]; rewrite H, trim_spaces; tauto. }
  destruct (submit_begin_missing p I) as (B & R & A & _).
  unfold submit, bind.
  destruct (submit_begin p) as [r p1]; cbn in *. subst r; cbn. tauto.
Qed.

(** *** The text of a failed response *)

(** X12.  After a non-2xx response whose body parses to anything but
    null, the text shown is the string conversion of the body's error
    property, or of the status text when that property is missing or
    falsy; when the conversion throws, the message of that error is shown.
    So an error property that is a nested object reads "[object Object]",
    and one that is a non-zero number reads as that number. *)
Theorem failed_response_shows (st : Z) (stx : string) (v error : value)
  (p : page) :
  ok (mkResponse st stx (Parsed v)) = false ->
  Get host v "error" = Ok error ->
  let p' := snd (submit_resume host
                   (Resolved (mkResponse st stx (Parsed v))) p) in
  match ToString host (or_else error (VStr stx)) with
  | Ok message => textContent (dom p' errorMessage) = message
  | Throw e => textContent (dom p' errorMessage) = exn_message e
  end /\
  hidden (dom p' recommendationsSection) = false /\
  (forall inner : list (string * value),
      error = VObj inner -> has_key "toString" inner = false ->
      textContent (dom p' errorMessage) = "[object Object]") /\
  (forall n : number,
      error = VNum n -> ToBoolean error = true ->
      textContent (dom p' errorMessage) = Number_toString host n).
Proof.
  intros H G p'. subst p'.
  unfold submit_resume, try_catch_finally.
  rewrite (try_block_not_ok _ p H). unfold errorData; cbn [json statusText].
  rewrite G. cbn [rbind].
  repeat split.
  - destruct (ToString host (or_else error (VStr stx))); reflexivity.
  - destruct (ToString host (or_else error (VStr stx))); reflexivity.
  - intros inner -> K. unfold or_else. cbn [ToBoolean ToString].
    rewrite K. reflexivity.
  - intros n -> T. unfold or_else. rewrite T. reflexivity.
Qed.

(** *** A null among the records *)

Lemma SortCompare_null_right (x : value) :
  SortCompare host x VNull = Throw (sort_fault host).
Proof. reflexivity. Qed.

Lemma SortCompare_null_left (y : value) :
  is_player_record y = true -> SortCompare host VNull y = Throw (sort_fault host).
Proof.
  intro R. unfold SortCompare, by_score.
  rewrite (proj1 (record_score y R)). reflexivity.
Qed.

Lemma insertion_sort_null (l : list value) :
  Forall record_or_null l -> In VNull l -> (2 <= List.length l)%nat ->
  insertion_sort host l = Throw (sort_fault host).
Proof.
  induction l as [ | x rest IH]; intros F N L; [cbn in L; lia | ].
  apply Forall_cons_iff in F as [Fx F].
  destruct rest as [ | y rest']; [cbn in L; lia | ].
  destruct rest' as [ | z rest''].
  - cbn [insertion_sort insert rbind].
    apply Forall_inv in F.
    destruct F as [Ry | ->]; [ | rewrite SortCompare_null_right; reflexivity].
    destruct N as [-> | [-> | []]]; [ | discriminate Ry].
    rewrite (SortCompare_null_left y Ry). reflexivity.
  - set (rest := y :: z :: rest'') in *.
    cbn [insertion_sort].
    destruct (existsb is_null rest) eqn:X.
    + apply existsb_exists in X as (w & Iw & Nw).
      destruct w; try discriminate Nw.
      rewrite (IH F Iw) by (subst rest; cbn; lia). reflexivity.
    + assert (Rr : all_records rest).
      { apply Forall_forall. intros v Iv.
        assert (Nv : is_null v = false).
        { destruct (is_null v) eqn:E; [ | reflexivity].
          assert (existsb is_null rest = true)
            by (apply existsb_exists; exists v; tauto).
          congruence. }
        rewrite Forall_forall in F. destruct (F v Iv) as [R | ->];
          [exact R | discriminate Nv]. }
      assert (x = VNull).
      { destruct N as [-> | N]; [reflexivity | ].
        assert (existsb is_null rest = true)
          by (apply existsb_exists; exists VNull; tauto).
        congruence. }
      subst x.
      destruct (insertion_sort_records rest Rr) as (s & Es & Ps & _).
      rewrite Es. cbn [rbind].
      destruct s as [ | y' s'].
      { apply Permutation_sym, Permutation_nil in Ps. subst rest.
        discriminate Ps. }
      assert (Ry' : is_player_record y' = true).
      { apply (Permutation_Forall Ps) in Rr. apply Forall_inv in Rr. exact Rr. }
      cbn [insert]. rewrite (SortCompare_null_left y' Ry'). reflexivity.
Qed.

Lemma no_undefined (l : list value) :
  Forall record_or_null l ->
  filter (fun v => negb (is_undefined v)) l = l.
Proof.
  intro F. induction F as [ | x l Fx F IH]; [reflexivity | ].
  cbn [filter]. rewrite IH.
  destruct Fx as [R | ->]; [ | reflexivity].
  destruct x; try discriminate R. reflexivity.
Qed.

(** X13.  A null anywhere in a list of records stops the list view: the
    comparator of the sort reads reco_score of null and throws, so no card
    is rendered; the list container is left empty under the header already
    written, the detail panel is left as it was and the message of the
    TypeError is shown. *)
Theorem list_with_null_element (st : Z) (stx : string)
  (props : list (string * value)) (rest : list value) (p : page) :
  ok (mkResponse st stx (Parsed (VArr (VObj props :: rest)))) = true ->
  is_player_record (VObj props) = true ->
  Forall record_or_null rest ->
  In VNull rest ->
  let p' := snd (submit_resume host
                   (Resolved (mkResponse st stx
                                (Parsed (VArr (VObj props :: rest))))) p) in
  textContent (dom p' errorMessage)
  = fault_message host (ReadOfNullish VNull "reco_score") /\
  hidden (dom p' recommendationsSection) = false /\
  innerHTML (dom p' playerListContainer) = [] /\
  display (dom p' resultsContainer) = display (dom p resultsContainer).
Proof.
  intros H R F N p'. subst p'.
  assert (L : (2 <= List.length (VObj props :: rest))%nat).
  { destruct rest; [destruct N | cbn; lia]. }
  assert (S : sort host (VObj props :: rest) = Throw (sort_fault host)).
  { assert (F' : Forall record_or_null (VObj props :: rest))
      by (constructor; [left; exact R | exact F]).
    unfold sort. rewrite (no_undefined _ F').
    rewrite (insertion_sort_null _ F' (or_intror N) L). reflexivity. }
  destruct (record_fields _ R)
    as (props' & n & E & _ & _ & _ & T & _ & _ & IW & _).
  injection E as <-.
  destruct (ToString_primitive _ T) as [team ET].
  assert (W : exists week : string,
             ToString host
               (if ToBoolean (lookup "input_week" props)
                then lookup "input_week" props else VStr "N/A") = Ok week)
    by (apply ToString_primitive;
        destruct (ToBoolean _); [assumption | reflexivity]).
  destruct W as [week EW].
  unfold submit_resume, try_catch_finally.
  rewrite (try_block_list st stx (VObj props :: rest) p H) by lia.
  unfold renderPlayerList. cbn [bind lift write rbind Get].
  destruct (ToBoolean (lookup "input_week" props));
    cbn [bind lift write rbind]; step ET; step EW; step S; repeat split.
Qed.



(** *** A rendered view and the error text *)

(** X14.  A submission that renders a view shows no error text: with the
    inputs filled in and a successful response holding one or more records
    of the data model, the error-message element is empty at the end,
    whatever it read before. *)
Theorem rendered_view_has_no_error_text (st : Z) (stx : string)
  (data : list value) (p : page) :
  ~ inputs_missing p ->
  ok (mkResponse st stx (Parsed (VArr data))) = true ->
  data <> [] ->
  all_records data ->
  let net := Resolved (mkResponse st stx (Parsed (VArr data))) in
  fst (try_block host net (snd (submit_begin p))) = Ok tt /\
  textContent (dom (snd (submit host net p)) errorMessage) = EmptyString.
Proof.
  intros I H Hne Rl net. subst net.
  destruct (display_after_begin
              (Resolved (mkResponse st stx (Parsed (VArr data)))) p I) as [S _].
  rewrite S.
  assert (E0 : textContent (dom (snd (submit_begin p)) errorMessage)
               = EmptyString).
  { assert (C : negb (ToBoolean (VStr (trim (value_ (dom p playerInput)))))
                || negb (ToBoolean (VStr (trim (value_ (dom p weekInput)))))
                || negb (ToBoolean (VStr (trim (value_ (dom p yearInput)))))
                = false).
    { unfold inputs_missing in I.
      apply not_true_is_false. rewrite !orb_true_iff, !not_ToBoolean_VStr.
      tauto. }
    unfold submit_begin, bind, write, get, getElementById; cbn.
    cbn in C. rewrite C; cbn. reflexivity. }
  set (q := snd (submit_begin p)) in *.
  destruct data as [ | first [ | second rest]]; [congruence | | ].
  - apply Forall_inv in Rl.
    destruct (record_fields first Rl)
      as (props & n & -> & Sc & _ & N & T & P & _ & IW & IY & V & Y & Rc & D).
    destruct (conclusion_total n) as [c C].
    destruct (ToString_primitive _ N) as [name EN].
    destruct (ToString_primitive _ T) as [team ET].
    destruct (ToString_primitive _ P) as [position EP].
    destruct (text_primitive _ IY) as [input_year EIY].
    destruct (text_primitive _ IW) as [input_week EIW].
    destruct (text_primitive _ V) as [volume EV].
    destruct (text_primitive _ Y) as [yards EY].
    destruct (text_primitive _ Rc) as [receptions ER].
    destruct (text_primitive _ D) as [td ED].
    unfold submit_resume, try_catch_finally.
    rewrite (try_block_single st stx (VObj props) q H eq_refl).
    rewrite (renderSinglePlayerDetail_written props n c name team position
               input_year input_week volume yards receptions td q
               Sc C EN ET EP EIY EIW EV EY ER ED).
    split; [reflexivity | exact E0].
  - assert (Hne' : first :: second :: rest <> []) by discriminate.
    destruct (renderPlayerList_records _ Rl Hne')
      as (sorted & cards & _ & _ & _ & _ & R).
    destruct (R q) as (R1 & _ & _ & _ & R5).
    unfold submit_resume, try_catch_finally.
    rewrite (try_block_list st stx (first :: second :: rest) q H)
      by (cbn; lia).
    destruct (renderPlayerList host (first :: second :: rest) q)
      as [[[] | e] p1]; cbn [fst snd] in R1, R5; try discriminate R1.
    split; [reflexivity | ]. cbn. rewrite R5. exact E0.
Qed.

(** *** What a failure leaves alone *)

(** X15.  When the request fails before anything is rendered -- fetch
    rejects, the status is not 2xx, or the body of a success does not
    parse -- the handler writes to the error-message element, the results
    section and the three parts of the submit control, and to no other
    element: the list container, its header and the fields of the detail
    panel stay as they were. *)
Theorem failure_writes_only_error_region (net : fetch_outcome) (p : page)
  (id : string) :
  (exists e : exn, net = Failed e) \/
  (exists r : response, net = Resolved r /\ ok r = false) \/
  (exists (r : response) (e : exn),
      net = Resolved r /\ ok r = true /\ json r = Unparsed e) ->
  written_on_failure id = false ->
  dom (snd (submit_resume host net p)) id = dom p id.
Proof.
  intros N W. unfold written_on_failure in W.
  rewrite !orb_false_iff in W. destruct W as ((((W1 & W2) & W3) & W4) & W5).
  assert (T : exists e : exn, try_block host net p = (Throw e, p)).
  { destruct N as [[e ->] | [(r & -> & O) | (r & e & -> & O & J)]].
    - exists e. reflexivity.
    - rewrite (try_block_not_ok r p O).
      destruct (rbind _ _); eexists; reflexivity.
    - exists e. unfold try_block. rewrite O, J. reflexivity. }
  destruct T as [e T].
  unfold submit_resume, try_catch_finally. rewrite T.
  cbn. rewrite W1, W2, W3, W4, W5. reflexivity.
Qed.

End Properties.

(** ** Runs on the engine *)

Lemma three_scores_records : all_records three_scores.
Proof. repeat constructor. Defined.

(** C1 at the score 80. *)
Lemma score_tiers_witness :
  Fin 80 <> NaN /\
  (conclusion engine (VNum (Fin 80)) = Ok must_start <-> num_le (Fin 75) (Fin 80)).
Proof.
  split; [discriminate | ].
  apply (score_tiers engine (Fin 80)). discriminate.
Defined.

(** C2: a body holding the single element null. *)
Lemma null_element_is_not_rendered :
  let p' := snd (submit engine (success (VArr [VNull])) filled) in
  display (dom p' resultsContainer) = "none" /\
  display (dom p' resultsContainer) <> "block" /\
  textContent (dom p' "conclusion") = EmptyString /\
  textContent (dom p' errorMessage) = "Error: Single player data was null.".
Proof.
  vm_compute. repeat split. discriminate.
Qed.

Lemma single_element_response_witness :
  ok (mkResponse 200 "OK"
        (Parsed (VArr [player "Kelce" "KC" "TE" 90 "3"]))) = true /\
  is_player_record (player "Kelce" "KC" "TE" 90 "3") = true /\
  display
    (dom (snd (submit_resume engine
                 (success (VArr [player "Kelce" "KC" "TE" 90 "3"])) filled))
         resultsContainer) = "block".
Proof.
  split; [reflexivity | ]. split; [reflexivity | ].
  destruct (single_element_response engine 200 "OK"
              (player "Kelce" "KC" "TE" 90 "3") filled eq_refl) as [R _].
  destruct (R eq_refl) as (props & n & c & name & team & position & _ & _ & _
                           & _ & _ & _ & _ & D & _).
  exact D.
Defined.

(** C3 on the scores 10, 90, 50. *)
Lemma list_in_descending_order_witness :
  ok (mkResponse 200 "OK" (Parsed (VArr three_scores))) = true /\
  (1 < List.length three_scores)%nat /\
  all_records three_scores /\
  exists sorted : list value,
    sort engine three_scores = Ok sorted /\
    map score_of sorted = [Fin 90; Fin 50; Fin 10].
Proof.
  split; [reflexivity | ]. split; [cbn; lia | ].
  split; [exact three_scores_records | ].
  destruct (list_in_descending_order engine 200 "OK" three_scores filled
              eq_refl ltac:(cbn; lia) three_scores_records)
    as (sorted & cards & ES & _ & _ & _ & _ & _ & _ & _ & X).
  exists sorted. split; [exact ES | ].
  rewrite (X _ _ _ eq_refl eq_refl eq_refl eq_refl). reflexivity.
Defined.

(** C4 on a form whose player field holds only blanks. *)
Lemma empty_field_sends_nothing_witness :
  inputs_missing (fresh_page "   " "3" "2024") /\
  requests (snd (submit engine (success (VArr [])) (fresh_page "   " "3" "2024")))
  = [] /\
  alerts (snd (submit engine (success (VArr [])) (fresh_page "   " "3" "2024")))
  = [fields_missing].
Proof.
  assert (H : inputs_missing (fresh_page "   " "3" "2024")) by (left; reflexivity).
  split; [exact H | ].
  destruct (empty_field_sends_nothing engine (success (VArr []))
              (fresh_page "   " "3" "2024") H) as (_ & R & A & _).
  split; [exact R | exact A].
Defined.

(** C5: an error property that is the empty string. *)
Lemma empty_error_string_shows_status_text :
  let body := VObj [("error", VStr EmptyString)] in
  let net := Resolved (mkResponse 404 "Not Found" (Parsed body)) in
  let shown := textContent (dom (snd (submit engine net filled)) errorMessage) in
  shown = "Not Found" /\ VStr shown <> lookup "error" [("error", VStr EmptyString)].
Proof.
  vm_compute. split; [reflexivity | discriminate].
Qed.

Lemma failed_response_text_witness :
  ok (mkResponse 404 "Not Found"
        (Parsed (VObj [("error", VStr "not found")]))) = false /\
  textContent
    (dom (snd (submit_resume engine
                 (Resolved (mkResponse 404 "Not Found"
                              (Parsed (VObj [("error", VStr "not found")]))))
                 filled))
         errorMessage) = "not found".
Proof.
  split; [reflexivity | ].
  destruct (failed_response_text engine 404 "Not Found"
              (Parsed (VObj [("error", VStr "not found")])) filled eq_refl)
    as [T _].
  apply (T [("error", VStr "not found")] "not found" eq_refl eq_refl).
  discriminate.
Defined.

(** C7: a submission with an empty field. *)
Lemma validation_failure_writes_no_message :
  let p' := snd (submit engine (success (VArr [])) (fresh_page "" "3" "2024")) in
  textContent (dom p' errorMessage) = EmptyString /\
  hidden (dom p' recommendationsSection) = true /\
  alerts p' = [fields_missing].
Proof.
  vm_compute. repeat split.
Qed.

Lemma error_paths_show_message_witness :
  ok (mkResponse 200 "OK" (Parsed (VArr []))) = true /\
  textContent (dom (snd (submit_resume engine (success (VArr [])) filled))
                   errorMessage) = no_data /\
  hidden (dom (snd (submit_resume engine (success (VArr [])) filled))
              recommendationsSection) = false.
Proof.
  split; [reflexivity | ].
  destruct (error_paths_show_message engine filled) as (_ & _ & _ & _ & E & _).
  exact (E 200%Z "OK" eq_refl).
Defined.

(** C8: a team search that finds players, followed by a search that finds
    none.  The second submission shows the no-data message in the revealed
    results section while the list container still holds the two cards and
    the header of the first. *)
Theorem stale_list_after_empty_result :
  let p1 := snd (submit engine
                   (success (VArr [ player "Rice" "KC" "WR" 10 "3";
                                    player "Kelce" "KC" "TE" 90 "3" ]))
                   filled) in
  let p2 := snd (submit engine (success (VArr [])) p1) in
  textContent (dom p2 errorMessage) = no_data /\
  hidden (dom p2 recommendationsSection) = false /\
  List.length (innerHTML (dom p2 playerListContainer)) = 2%nat /\
  innerHTML (dom p2 playerListContainer) = innerHTML (dom p1 playerListContainer) /\
  textContent (dom p2 playerListHeader)
  = "Top Fantasy Options for the KC (Week 3)".
Proof.
  vm_compute. repeat split.
Qed.

(** C9 at the score 0. *)
Lemma falsy_score_shows_dashes_witness :
  ToBoolean (VNum (Fin 0)) = false /\
  scoreText engine (VNum (Fin 0)) = Ok "--" /\
  exists color : string,
    createPlayerCardHTML engine (player "Rice" "KC" "WR" 0 "3")
    = Ok (card "Rice" "WR" "KC" color "--" "Start").
Proof.
  split; [reflexivity | ].
  destruct (falsy_score_shows_dashes engine (VNum (Fin 0)) eq_refl)
    as (T & C & _).
  split; [exact T | ].
  apply (C _ "Rice" "WR" "KC" "Start"); reflexivity.
Defined.

(** C10: a 500 response whose body is null. *)
Lemma null_body_shows_engine_message_witness :
  ok (mkResponse 500 "Internal Server Error" (Parsed VNull)) = false /\
  textContent
    (dom (snd (submit_resume engine
                 (Resolved (mkResponse 500 "Internal Server Error"
                              (Parsed VNull))) filled))
         errorMessage)
  = "Cannot read properties of null (reading 'error')" /\
  textContent
    (dom (snd (submit_resume engine
                 (Resolved (mkResponse 500 "Internal Server Error"
                              (Parsed VNull))) filled))
         errorMessage)
  <> "Internal Server Error".
Proof.
  split; [reflexivity | ].
  rewrite (null_body_shows_engine_message engine 500 "Internal Server Error"
             filled eq_refl).
  split; [reflexivity | discriminate].
Defined.

(** ** Runs for the properties beyond the claims *)

Lemma filled_complete : ~ inputs_missing filled.
Proof.
  intros [H | [H | H]]; vm_compute in H; discriminate H.
Defined.

Lemma one_request_per_submission_witness :
  ~ inputs_missing filled /\
  requests (snd (submit engine (success (VArr [])) filled))
  = [mkRequest "/analyze_player" "POST" "application/json"
       (mkUserInputs "Chiefs" "2024" "3")].
Proof.
  split; [exact filled_complete | ].
  destruct (one_request_per_submission engine (success (VArr [])) filled
              filled_complete) as [R _].
  exact R.
Defined.

Lemma loading_state_witness :
  ~ inputs_missing filled /\
  disabled (dom (snd (submit_begin filled)) submitButton) = true /\
  textContent (dom (snd (submit_begin filled)) buttonText) = "Analyzing...".
Proof.
  split; [exact filled_complete | ].
  destruct (loading_state filled filled_complete) as (D & T & _).
  split; [exact D | exact T].
Defined.

Lemma detail_shown_only_after_render_witness :
  ~ inputs_missing filled /\
  display (dom (snd (submit engine (success (VArr [kelce])) filled))
               resultsContainer) = "block" /\
  exists (st : Z) (stx : string) (first : value),
    success (VArr [kelce]) = Resolved (mkResponse st stx (Parsed (VArr [first])))
    /\ ToBoolean first = true.
Proof.
  split; [exact filled_complete | ]. split; [reflexivity | ].
  destruct (detail_shown_only_after_render engine (success (VArr [kelce]))
              filled filled_complete eq_refl)
    as (st & stx & first & N & _ & T & _).
  exists st, stx, first. split; [exact N | exact T].
Defined.

Lemma record_without_score_witness :
  ok (mkResponse 200 "OK" (Parsed (VArr [VObj scoreless]))) = true /\
  lookup "reco_score" scoreless = VUndefined /\
  textContent
    (dom (snd (submit_resume engine (success (VArr [VObj scoreless])) filled))
         errorMessage)
  = "Cannot read properties of undefined (reading 'toFixed')".
Proof.
  split; [reflexivity | ]. split; [reflexivity | ].
  destruct (record_without_score engine 200 "OK" scoreless "Rice" "KC" "WR"
              filled eq_refl (or_introl eq_refl) eq_refl eq_refl eq_refl)
    as [T _].
  exact T.
Defined.

Lemma list_with_null_first_witness :
  ok (mkResponse 200 "OK" (Parsed (VArr [VNull; kelce]))) = true /\
  [kelce] <> [] /\
  textContent
    (dom (snd (submit_resume engine (success (VArr [VNull; kelce])) filled))
         errorMessage)
  = "Cannot read properties of null (reading 'team')".
Proof.
  split; [reflexivity | ]. split; [discriminate | ].
  destruct (list_with_null_first engine 200 "OK" [kelce] filled eq_refl
              ltac:(discriminate)) as [T _].
  exact T.
Defined.

Lemma list_header_witness :
  ok (mkResponse 200 "OK" (Parsed (VArr three_scores))) = true /\
  textContent
    (dom (snd (submit_resume engine (success (VArr three_scores)) filled))
         playerListHeader)
  = "Top Fantasy Options for the KC (Week 3)".
Proof.
  split; [reflexivity | ].
  apply (list_header engine 200 "OK" _ _ "KC" "3" filled eq_refl);
    [discriminate | reflexivity | reflexivity].
Defined.

Lemma tied_records : all_records tied.
Proof. repeat constructor. Defined.

Lemma ties_keep_response_order_witness :
  all_records tied /\
  exists sorted : list value,
    sort engine tied = Ok sorted /\
    filter (scored (Fin 50)) sorted
    = [ player "Rice" "KC" "WR" 50 "3"; player "Pacheco" "KC" "RB" 50 "3" ].
Proof.
  split; [exact tied_records | ].
  destruct (ties_keep_response_order engine tied tied_records)
    as (sorted & E & F).
  exists sorted. split; [exact E | ].
  rewrite (F (Fin 50)). reflexivity.
Defined.

Lemma card_fields_witness :
  is_player_record (VObj nameless) = true /\
  exists color score : string,
    createPlayerCardHTML engine (VObj nameless)
    = Ok (card "N/A" "N/A" "N/A" color score "undefined").
Proof.
  split; [reflexivity | ].
  destruct (card_fields engine (VObj nameless) eq_refl)
    as (props & name & position & team & color & score & conclusion
        & E & C & N & P & T & U).
  injection E as <-. cbn in N, P, T. pose proof (U eq_refl) as U'.
  subst name position team conclusion.
  exists color, score. exact C.
Defined.

Lemma blank_field_sends_nothing_witness :
  value_ (dom (fresh_page "   " "3" "2024") playerInput) = spaces 3 /\
  requests (snd (submit engine (success (VArr [])) (fresh_page "   " "3" "2024")))
  = [].
Proof.
  split; [reflexivity | ].
  destruct (blank_field_sends_nothing engine (success (VArr []))
              (fresh_page "   " "3" "2024") 3 (or_introl eq_refl)) as [R _].
  exact R.
Defined.

Lemma failed_response_shows_witness :
  ok (mkResponse 500 "Internal Server Error"
        (Parsed (VObj [("error", VObj [("code", VNum (Fin 1))])]))) = false /\
  textContent
    (dom (snd (submit_resume engine
                 (Resolved
                    (mkResponse 500 "Internal Server Error"
                       (Parsed (VObj [("error", VObj [("code", VNum (Fin 1))])]))))
                 filled))
         errorMessage) = "[object Object]".
Proof.
  split; [reflexivity | ].
  destruct (failed_response_shows engine 500 "Internal Server Error"
              (VObj [("error", VObj [("code", VNum (Fin 1))])])
              (VObj [("code", VNum (Fin 1))]) filled eq_refl eq_refl)
    as (_ & _ & O & _).
  exact (O _ eq_refl eq_refl).
Defined.

Lemma list_with_null_element_witness :
  ok (mkResponse 200 "OK" (Parsed (VArr [kelce; VNull; kelce]))) = true /\
  is_player_record kelce = true /\
  In VNull [VNull; kelce] /\
  textContent
    (dom (snd (submit_resume engine (success (VArr [kelce; VNull; kelce]))
                 filled))
         errorMessage)
  = "Cannot read properties of null (reading 'reco_score')".
Proof.
  split; [reflexivity | ]. split; [reflexivity | ].
  split; [left; reflexivity | ].
  assert (F : Forall record_or_null [VNull; kelce]).
  { constructor; [right; reflexivity | ].
    constructor; [left; reflexivity | constructor]. }
  destruct (list_with_null_element engine 200 "OK" _ [VNull; kelce] filled
              eq_refl (eq_refl : is_player_record kelce = true) F
              (or_introl eq_refl)) as [T _].
  exact T.
Defined.

Lemma rendered_view_has_no_error_text_witness :
  ~ inputs_missing filled /\
  all_records three_scores /\
  textContent
    (dom (snd (submit engine (success (VArr three_scores)) filled))
         errorMessage) = EmptyString.
Proof.
  split; [exact filled_complete | ]. split; [exact three_scores_records | ].
  destruct (rendered_view_has_no_error_text engine 200 "OK" three_scores filled
              filled_complete eq_refl ltac:(discriminate) three_scores_records)
    as [_ T].
  exact T.
Defined.

Lemma failure_writes_only_error_region_witness :
  written_on_failure playerListContainer = false /\
  dom (snd (submit_resume engine (Failed (mkExn "TypeError" "Failed to fetch"))
              filled))
      playerListContainer
  = dom filled playerListContainer.
Proof.
  split; [reflexivity | ].
  apply (failure_writes_only_error_region engine); [ | reflexivity].
  left. eexists. reflexivity.
Defined.
